(** * SCPI oscilloscope driver: readiness polling and waveform acquisition

    A shallow embedding of [instrument_module/Tek_DPO4000.py] (class
    [DPO4000]) and of the connection helpers of
    [instrument_module/visa_utils.py].

    The driver is a sequence of calls on a VISA device object
    ([write], [query], [read_raw], assignment of [timeout]) interleaved
    with [sleep] and [print].  Every call on the device may raise.  The
    embedding threads the chronological log of these effects through an
    exception monad; the device is an arbitrary function of the log so
    far and of the current request, so any deterministic instrument, and
    any instrument whose behaviour changes with the time slept, is an
    instance. *)

From Stdlib Require Import List String Ascii ZArith Bool Lia DecimalString.
Import ListNotations.
Local Open Scope string_scope.
Local Open Scope list_scope.

(** ** Python values the driver depends on *)

(** The exception classes that occur.  All of them derive from Python's
    [Exception]; [KeyboardInterrupt] and [SystemExit], which no device call
    raises, are not modelled.  Hence [except Exception] and the bare
    [except:] of the source catch the same exceptions here. *)
Inductive exn_class : Type :=
| VisaIOError
| ValueError
| TypeError
| AttributeError
| OtherException.

Record exn : Type := mkExn { exn_cls : exn_class; exn_msg : string }.

Definition is_VisaIOError (e : exn) : bool :=
  match exn_cls e with VisaIOError => true | _ => false end.

(** The builtins [int(str)] and [float(str)].  Both raise [ValueError] on a
    string they do not accept, which is the [None] result here; the
    floating-point value itself is opaque to the driver, which only passes
    it on. *)
Class PyBuiltins : Type := {
  pyfloat : Type;
  int_of_str : string -> option Z;
  float_of_str : string -> option pyfloat
}.

(** ** Device requests, replies and the effect log *)

Inductive request : Type :=
| Write (cmd : string)        (* device.write(cmd) *)
| Query (cmd : string)        (* device.query(cmd) *)
| ReadRaw                     (* device.read_raw() *)
| SetTimeout (ms : Z).        (* device.timeout = ms *)

(** What a call gives back: the response string of [query], the bytes of
    [read_raw] (a [string] is a list of 8-bit characters), an ignored
    value for [write] and the assignment; or an exception. *)
Inductive reply : Type :=
| Ok (payload : string)
| Raise (e : exn).

Inductive event : Type :=
| EvCall (rq : request) (r : reply)   (* a call on the device and its outcome *)
| EvSleep (ms : nat)                  (* time.sleep, in milliseconds *)
| EvPrint (msg : string).             (* print(msg) *)

Definition trace : Type := list event.

(** The device: its reply to a request, given everything that happened
    before on this connection. *)
Definition device : Type := trace -> request -> reply.

(** ** The exception monad over the effect log *)

Inductive result (A : Type) : Type :=
| Return (a : A)
| Raised (e : exn).
Arguments Return {A} a.
Arguments Raised {A} e.

Definition M (A : Type) : Type := trace -> result A * trace.

Definition ret {A} (a : A) : M A := fun tr => (Return a, tr).

Definition raise {A} (e : exn) : M A := fun tr => (Raised e, tr).

Definition bind {A B} (m : M A) (k : A -> M B) : M B :=
  fun tr =>
    match m tr with
    | (Return a, tr') => k a tr'
    | (Raised e, tr') => (Raised e, tr')
    end.

(** [try: body / except ...: handler(e)] *)
Definition try_except {A} (body : M A) (handler : exn -> M A) : M A :=
  fun tr =>
    match body tr with
    | (Return a, tr') => (Return a, tr')
    | (Raised e, tr') => handler e tr'
    end.

Declare Scope py_scope.
Delimit Scope py_scope with py.
Notation "x <- c1 ;; c2" := (bind c1 (fun x => c2))
  (at level 100, c1 at next level, right associativity) : py_scope.
Notation "c1 ;; c2" := (bind c1 (fun _ => c2))
  (at level 100, right associativity) : py_scope.
Local Open Scope py_scope.

(** One call on the device: the request and its outcome are logged, and an
    exception of the transport is raised in the driver. *)
Definition call (dev : device) (rq : request) : M string :=
  fun tr =>
    match dev tr rq with
    | Ok s => (Return s, tr ++ [EvCall rq (Ok s)])
    | Raise e => (Raised e, tr ++ [EvCall rq (Raise e)])
    end.

Definition sleep (ms : nat) : M unit := fun tr => (Return tt, tr ++ [EvSleep ms]).

Definition print (msg : string) : M unit := fun tr => (Return tt, tr ++ [EvPrint msg]).

(** A loop that runs until its body yields a value ([while True: ... break],
    [while good == 0: ...]).  [fuel] bounds the number of passes through the
    body that are unfolded: [None] is a loop that is still running after
    [fuel] passes, with the log it has produced so far. *)
Fixpoint loop_until {A} (body : M (option A)) (fuel : nat) (tr : trace)
  : option (result A) * trace :=
  match fuel with
  | O => (None, tr)
  | S fuel' =>
      match body tr with
      | (Return (Some a), tr') => (Some (Return a), tr')
      | (Return None, tr') => loop_until body fuel' tr'
      | (Raised e, tr') => (Some (Raised e), tr')
      end
  end.

(** The events a computation has added to the log [tr]. *)
Fixpoint added (tr tr' : trace) : trace :=
  match tr, tr' with
  | _ :: t, _ :: t' => added t t'
  | _, _ => tr'
  end.

(** The device calls of a log, in order. *)
Fixpoint commands (tr : trace) : list request :=
  match tr with
  | [] => []
  | EvCall rq _ :: t => rq :: commands t
  | _ :: t => commands t
  end.

(** ** [Tek_DPO4000.py]: class [DPO4000] *)

Section DPO4000.

Context {B : PyBuiltins}.
Variable dev : device.      (* self.device *)

(** [int(s)] for a string [s].  The message of the [ValueError] is
    abridged: Python appends the rejected string. *)
Definition py_int (s : string) : M Z :=
  match int_of_str s with
  | Some n => ret n
  | None => raise (mkExn ValueError "invalid literal for int() with base 10")
  end.

(** [float(s)] for a string [s], with the same abridged message. *)
Definition py_float (s : string) : M pyfloat :=
  match float_of_str s with
  | Some x => ret x
  | None => raise (mkExn ValueError "could not convert string to float")
  end.

(** [float(v)] for [v] a float or [None]. *)
Definition py_float_of_value (v : option pyfloat) : M pyfloat :=
  match v with
  | Some x => ret x
  | None =>
      raise (mkExn TypeError
        "float() argument must be a string or a real number, not 'NoneType'")
  end.

(** Status commands *)

Definition wai : M unit :=
  let command := "*WAI" in
  _ <- call dev (Write command) ;; ret tt.

Definition poll_interval_ms : nat := 100.   (* sleep(0.1) *)

(** One pass through the body of [while True] in [wait_until_ready]:
    [Some tt] when [break] is executed. *)
Definition wait_until_ready_body : M (option unit) :=
  try_except
    (r <- call dev (Query "*OPC?") ;;
     n <- py_int r ;;
     if negb (Z.eqb n 0) then ret (Some tt) else ret None)
    (fun _ => sleep poll_interval_ms ;; ret None).

Definition wait_until_ready (fuel : nat) (tr : trace)
  : option (result unit) * trace :=
  loop_until wait_until_ready_body fuel tr.

(** DATA commands *)

Definition data_source (chan : string) : M unit :=
  let command := String.append "DATA:SOU CH" chan in
  _ <- call dev (Write command) ;; ret tt.

Definition data_width (width : string) : M unit :=
  let command := String.append "DATA:WIDTH " width in
  _ <- call dev (Write command) ;; ret tt.

Definition data_encoding (enc : string) : M unit :=
  let command := String.append "DATA:ENC " enc in
  _ <- call dev (Write command) ;; ret tt.

(** WAVEFORM PREAMBLE commands *)

Definition wfmpre_ymult : M (option pyfloat) :=
  let command := "WFMPRE:YMULT?" in
  try_except
    (wai ;;
     r <- call dev (Query command) ;;
     ymult <- py_float r ;;
     ret (Some ymult))
    (fun e =>
       print (String.append "Error querying YMULT: " (exn_msg e)) ;;
       ret None).

Definition wfmpre_yzero : M (option pyfloat) :=
  let command := "WFMPRE:YZERO?" in
  try_except
    (r <- call dev (Query command) ;;
     yzero <- py_float r ;;
     ret (Some yzero))
    (fun e =>
       print (String.append "Error querying YZERO: " (exn_msg e)) ;;
       ret None).

Definition wfmpre_yoff : M (option pyfloat) :=
  let command := "WFMPRE:YOFF?" in
  try_except
    (r <- call dev (Query command) ;;
     yoff <- py_float r ;;
     ret (Some yoff))
    (fun e =>
       print (String.append "Error querying YOFF: " (exn_msg e)) ;;
       ret None).

Definition wfmpre_xincr : M (option pyfloat) :=
  let command := "WFMPRE:XINCR?" in
  try_except
    (r <- call dev (Query command) ;;
     xincr <- py_float r ;;
     ret (Some xincr))
    (fun e =>
       print (String.append "Error querying XINCR: " (exn_msg e)) ;;
       ret None).

(** DATA COLLECTION functions *)

(** The tuple [ymult, yzero, yoff, xincr, data] of [acquire_waveform]. *)
Record waveform : Type := mkWaveform {
  ymult : pyfloat;
  yzero : option pyfloat;
  yoff : option pyfloat;
  xincr : option pyfloat;
  data : string
}.

(** The statements of the [try] block of [acquire_waveform], up to
    [good = 1]. *)
Definition acquire_attempt (chan width enc : string) : M waveform :=
  data_source chan ;;
  data_width width ;;
  data_encoding enc ;;
  v <- wfmpre_ymult ;;
  ymult <- py_float_of_value v ;;
  yzero <- wfmpre_yzero ;;
  yoff <- wfmpre_yoff ;;
  xincr <- wfmpre_xincr ;;
  call dev (Write "CURVE?") ;;
  data <- call dev ReadRaw ;;
  ret (mkWaveform ymult yzero yoff xincr data).

(** One pass through the body of [while good == 0]: [Some w] when
    [good = 1] was reached, [None] when the bare [except] set
    [good = 0]. *)
Definition acquire_waveform_body (chan width enc : string)
  : M (option waveform) :=
  try_except
    (w <- acquire_attempt chan width enc ;; ret (Some w))
    (fun _ => ret None).

Definition acquire_waveform (fuel : nat) (chan width enc : string)
  (tr : trace) : option (result waveform) * trace :=
  loop_until (acquire_waveform_body chan width enc) fuel tr.

End DPO4000.

(** ** [visa_utils.py] *)

(** [rm.open_resource(name)]: a device object, or an exception. *)
Inductive open_result : Type :=
| Opened (d : device)
| OpenRaises (e : exn).

Definition resource_manager : Type := string -> open_result.

(** The tuple [(device, address, status)]; [None] is Python's [None]. *)
Definition connection : Type := (option device * option string * string)%type.

(** [str(n)] for an integer, as an f-string formats it. *)
Definition str_of_int (n : Z) : string := NilZero.string_of_int (Z.to_int n).

Section VisaUtils.

(** [pyvisa.ResourceManager()], which may itself raise. *)
Variable ResourceManager : result resource_manager.

Definition get_resource_manager : result resource_manager := ResourceManager.

Definition connect_usb_instrument (address : string) : result connection :=
  match get_resource_manager with
  | Raised e => Raised e
  | Return rm =>
      match rm address with
      | Opened device => Return (Some device, Some address, "Connected")
      | OpenRaises e =>
          if is_VisaIOError e then Return (None, None, "Not Connected")
          else Raised e
      end
  end.

Definition connect_ethernet_instrument (ip_address : string) (port : Z)
  (use_socket : bool) : result connection :=
  match get_resource_manager with
  | Raised e => Raised e
  | Return rm =>
      let resource_str :=
        if use_socket then
          String.append "TCPIP0::" (String.append ip_address
            (String.append "::" (String.append (str_of_int port) "::SOCKET")))
        else
          String.append "TCPIP0::" (String.append ip_address "::INSTR") in
      match rm resource_str with
      | Opened device => Return (Some device, Some resource_str, "Connected")
      | OpenRaises e =>
          if is_VisaIOError e then Return (None, None, "Not Connected")
          else Raised e
      end
  end.

(** *** [DPO4000.__init__] *)

(** The attributes of a constructed [DPO4000] object. *)
Record DPO4000 : Type := mkDPO4000 {
  device_of : option device;
  address_of : option string;
  status_of : string;
  connected_with : option string
}.

(** The attributes after the [if]/[elif] of [__init__]: [None] when
    neither branch ran and they are still unset. *)
Definition init_connect (connection_method address : string)
  : result (option DPO4000) :=
  if String.eqb connection_method "USB" then
    match connect_usb_instrument address with
    | Raised e => Raised e
    | Return (device, address, status) =>
        Return (Some (mkDPO4000 device address status
          (if String.eqb status "Connected" then Some "USB" else None)))
    end
  else if String.eqb connection_method "IP" then
    match connect_ethernet_instrument address 5025 false with
    | Raised e => Raised e
    | Return (device, address, status) =>
        Return (Some (mkDPO4000 device address status
          (if String.eqb status "Connected" then Some "Ethernet" else None)))
    end
  else Return None.

(** [__init__]: the constructed object and the log of its device, or the
    exception that leaves the constructor. *)
Definition DPO4000_init (connection_method address : string)
  : result (DPO4000 * trace) :=
  let TIMEOUT := 20000%Z in
  match init_connect connection_method address with
  | Raised e => Raised e
  | Return None =>
      Raised (mkExn AttributeError "'DPO4000' object has no attribute 'device'")
  | Return (Some self) =>
      match device_of self with
      | None =>
          Raised (mkExn AttributeError
            "'NoneType' object has no attribute 'timeout'")
      | Some device =>
          match call device (SetTimeout TIMEOUT) [] with
          | (Return _, tr) => Return (self, tr)
          | (Raised e, _) => Raised e
          end
      end
  end.

End VisaUtils.

(** ** The rest of [Tek_DPO4000.py] *)

(** An f-string: the pieces, formatted, one after the other. *)
Definition fmt (parts : list string) : string := String.concat "" parts.

Section DPO4000Commands.

Variable dev : device.      (* self.device *)

Definition reset : M unit :=
  _ <- call dev (Write "*RST") ;; ret tt.

Definition vertical_position (chan pos : string) : M unit :=
  let command := fmt ["CH"; chan; ":POSition "; pos] in
  _ <- call dev (Write command) ;; ret tt.

Definition acquire_stopafter (stopafter_val : string) : M unit :=
  let command := fmt ["ACQUIRE:STOPAFTER "; stopafter_val] in
  _ <- call dev (Write command) ;; ret tt.

Definition acquire_state (acq_state : string) : M unit :=
  let command := fmt ["ACQUIRE:STATE "; acq_state] in
  _ <- call dev (Write command) ;; ret tt.

Definition config_acq (stopafter_val acq_state : string) : M unit :=
  acquire_stopafter stopafter_val ;;
  acquire_state acq_state ;;
  wai dev.

Definition scope_test : M unit :=
  vertical_position "1" "1" ;;
  vertical_position "2" "2" ;;
  vertical_position "3" "3" ;;
  sleep 1000 ;;
  vertical_position "1" "-1" ;;
  vertical_position "2" "-2" ;;
  vertical_position "3" "-3" ;;
  vertical_position "4" "-5" ;;
  sleep 1000.

(** [measure_amplitude] returns what the second [write] returns. *)
Definition measure_amplitude (chan meastype : string) : M string :=
  let command := fmt ["MEASUrement:IMMed:SOUrce"; chan] in
  call dev (Write command) ;;
  let command := fmt ["MEASUrement:IMMed:TYPe"; meastype] in
  voltage <- call dev (Write command) ;;
  ret voltage.

End DPO4000Commands.

(** *** The standalone run of [Tek_DPO4000.py] *)

(** One pass through the body of [while i < 10], before [i += i]: the log
    of the scope built in this pass. *)
Definition main_pass (ResourceManager : result resource_manager) : result trace :=
  match DPO4000_init ResourceManager "IP" "10.0.142.3" with
  | Raised e => Raised e
  | Return (scope, tr) =>
      match device_of scope with
      | None =>
          Raised (mkExn AttributeError "'NoneType' object has no attribute 'write'")
      | Some d =>
          match (scope_test d ;; reset d) tr with
          | (Return _, tr') => Return tr'
          | (Raised e, _) => Raised e
          end
      end
  end.

(** [while i < 10: ...; i += i], from the value [i] of the counter; [fuel]
    bounds the tests of the condition that are unfolded.  The state is the
    counter and the logs of the scopes built so far. *)
Fixpoint main_loop (ResourceManager : result resource_manager) (fuel : nat)
  (i : Z) (logs : list trace) : option (result unit) * (Z * list trace) :=
  match fuel with
  | O => (None, (i, logs))
  | S fuel' =>
      if (i <? 10)%Z then
        match main_pass ResourceManager with
        | Return tr => main_loop ResourceManager fuel' (i + i) (logs ++ [tr])
        | Raised e => (Some (Raised e), (i, logs))
        end
      else (Some (Return tt), (i, logs))
  end.

Definition DPO4000_main (ResourceManager : result resource_manager)
  (fuel : nat) : option (result unit) * (Z * list trace) :=
  main_loop ResourceManager fuel 0 [].

(** ** The rest of [visa_utils.py]: [list_instruments] *)

(** [str.isspace] on the ASCII characters. *)
Definition is_space (c : ascii) : bool :=
  let n := nat_of_ascii c in
  ((9 <=? n)%nat && (n <=? 13)%nat) || ((28 <=? n)%nat && (n <=? 32)%nat).

Fixpoint lstrip (s : string) : string :=
  match s with
  | EmptyString => EmptyString
  | String c r => if is_space c then lstrip r else s
  end.

Fixpoint rstrip (s : string) : string :=
  match s with
  | EmptyString => EmptyString
  | String c r =>
      match rstrip r with
      | EmptyString => if is_space c then EmptyString else String c EmptyString
      | r' => String c r'
      end
  end.

(** [s.strip()] *)
Definition strip (s : string) : string := lstrip (rstrip s).

(** [s.split(",")] *)
Fixpoint split_comma (s : string) : list string :=
  match s with
  | EmptyString => [EmptyString]
  | String c r =>
      if Ascii.eqb c ","
      then EmptyString :: split_comma r
      else match split_comma r with
           | p :: ps => String c p :: ps
           | [] => [String c EmptyString]
           end
  end.

(** [try: body / except VisaIOError as e: handler(e)]: any other exception
    leaves the statement. *)
Definition try_except_visa {A} (body : M A) (handler : exn -> M A) : M A :=
  fun tr =>
    match body tr with
    | (Return a, tr') => (Return a, tr')
    | (Raised e, tr') =>
        if is_VisaIOError e then handler e tr' else (Raised e, tr')
    end.

(** [for x in l: f(x)] *)
Fixpoint for_each {A} (f : A -> M unit) (l : list A) : M unit :=
  match l with
  | [] => ret tt
  | x :: l' => f x ;; for_each f l'
  end.

(** The result of a call that is not on the device of the log. *)
Definition lift {A} (r : result A) : M A := fun tr => (r, tr).

(** [rm.open_resource(name)] *)
Definition open_resource (rm : resource_manager) (name : string) : M device :=
  match rm name with
  | Opened d => ret d
  | OpenRaises e => raise e
  end.

(** A call on a device that has just been opened: the device sees its own
    empty history, the call goes to the log of the listing. *)
Definition call_fresh (d : device) (rq : request) : M string :=
  fun tr =>
    match d [] rq with
    | Ok s => (Return s, tr ++ [EvCall rq (Ok s)])
    | Raise e => (Raised e, tr ++ [EvCall rq (Raise e)])
    end.

Definition nth_part (parts : list string) (n : nat) : string :=
  nth n parts EmptyString.

(** The body of the [for] loop of [list_instruments]. *)
Definition list_one (rm : resource_manager) (inst : string) : M unit :=
  print (fmt [" - "; inst]) ;;
  try_except_visa
    (device <- open_resource rm inst ;;
     r <- call_fresh device (Query "*IDN?") ;;
     let idn_response := strip r in
     let idn_parts := split_comma idn_response in
     if (List.length idn_parts =? 4)%nat then
       print (fmt ["   Manufacturer: "; nth_part idn_parts 0]) ;;
       print (fmt ["   Model: "; nth_part idn_parts 1]) ;;
       print (fmt ["   Serial Number: "; nth_part idn_parts 2]) ;;
       print (fmt ["   Firmware Version: "; nth_part idn_parts 3])
     else
       print "   Unrecognized IDN format.")
    (fun e =>
       print (fmt ["   Error communicating with "; inst; ": "; exn_msg e])).

(** [list_resources] is the outcome of [rm.list_resources()]. *)
Definition list_instruments (ResourceManager : result resource_manager)
  (list_resources : result (list string)) : M unit :=
  rm <- lift (get_resource_manager ResourceManager) ;;
  instruments <- lift list_resources ;;
  match instruments with
  | _ :: _ =>
      print "Available Instruments:" ;;
      for_each (list_one rm) instruments
  | [] =>
      print "No instruments found."
  end.

(** ** The other drivers: the callers of the connection helpers *)

(** The four attributes every driver assigns in [__init__]. *)
Record attributes : Type := mkAttributes {
  attr_device : option device;
  attr_address : option string;
  attr_status : string;
  attr_connected_with : option string
}.

(** A driver object: [None] when [__init__] has assigned no attribute. *)
Definition object : Type := option attributes.

(** [self.device.<method>], up to the call. *)
Definition device_method (self : object) (method : string) : M device :=
  match self with
  | None => raise (mkExn AttributeError "object has no attribute 'device'")
  | Some a =>
      match attr_device a with
      | None =>
          raise (mkExn AttributeError
                   (fmt ["'NoneType' object has no attribute '"; method; "'"]))
      | Some d => ret d
      end
  end.

(** [factory_reset], the same text in [Keithley2100], [Keithley6221],
    [Keysight34461A], [DP800] and [DG4000]. *)
Definition factory_reset (self : object) : M unit :=
  let command := "*RST" in
  d <- device_method self "write" ;;
  call d (Write command) ;;
  sleep 5000.

(** [str(v)] for an optional string. *)
Definition str_of_optional (v : option string) : string :=
  match v with Some s => s | None => "None" end.

Definition DELAY_ms : nat := 10.   (* DELAY = 0.01 *)

Section Drivers.

Context {B : PyBuiltins}.
Variable ResourceManager : result resource_manager.
Variable str_of_float : pyfloat -> string.    (* str(x) for a float *)

Definition str_of_measurement (v : option pyfloat) : string :=
  match v with Some x => str_of_float x | None => "None" end.

(** *** [keithley_2100.py] *)

Definition Keithley2100_init (connection_method address : string)
  : result object :=
  if String.eqb connection_method "USB" then
    match connect_usb_instrument ResourceManager address with
    | Raised e => Raised e
    | Return (device, address, status) =>
        Return (Some (mkAttributes device address status
          (if String.eqb status "Connected" then Some "USB" else None)))
    end
  else Return None.

Definition Keithley2100_meas_dcv (self : object) (meas_range resolution : string)
  : M (option pyfloat) :=
  let command := fmt ["MEASURE:VOLTAGE:DC? "; meas_range; ","; resolution] in
  try_except
    (d <- device_method self "query" ;;
     r <- call d (Query command) ;;
     dcv <- py_float r ;;
     ret (Some dcv))
    (fun e =>
       print (fmt ["Error querying MEASURE:VOLTAGE:DC "; exn_msg e]) ;;
       ret None).

Definition Keithley2100_meas_res (self : object) (meas_range resolution : string)
  : M (option pyfloat) :=
  let command := fmt ["MEASURE:RESISTANCE? "; meas_range; ","; resolution] in
  try_except
    (d <- device_method self "query" ;;
     r <- call d (Query command) ;;
     res <- py_float r ;;
     ret (Some res))
    (fun e =>
       print (fmt ["Error querying MEASURE:RESISTANCE? "; exn_msg e]) ;;
       ret None).

Definition Keithley2100_dmm_test (self : object) : M unit :=
  vout <- Keithley2100_meas_dcv self "100" "DEF" ;;
  sleep 1000 ;;
  print (fmt ["DC Volts Measured: "; str_of_measurement vout]) ;;
  res <- Keithley2100_meas_res self "100" "DEF" ;;
  sleep 1000 ;;
  print (fmt ["Measured resistance out: "; str_of_measurement res]).

(** *** [keysight_34461a.py] *)

(** The attributes after the [if]/[elif]/[else] of [__init__]. *)
Definition Keysight34461A_connect (connection_method address : string)
  : result attributes :=
  if String.eqb connection_method "USB" then
    match connect_usb_instrument ResourceManager address with
    | Raised e => Raised e
    | Return (device, address, status) =>
        Return (mkAttributes device address status
          (if String.eqb status "Connected" then Some "USB" else None))
    end
  else if String.eqb connection_method "IP" then
    match connect_ethernet_instrument ResourceManager address 5025 false with
    | Raised e => Raised e
    | Return (device, address, status) =>
        Return (mkAttributes device address status
          (if String.eqb status "Connected" then Some "Ethernet" else None))
    end
  else Return (mkAttributes None None "Invalid Method" None).

Definition Keysight34461A_init (connection_method address : string)
  : M attributes :=
  self <- lift (Keysight34461A_connect connection_method address) ;;
  if String.eqb (attr_status self) "Connected" then
    print (fmt ["Successfully connected to Keysight 34461A via ";
                str_of_optional (attr_connected_with self); " at ";
                str_of_optional (attr_address self)]) ;;
    match attr_device self with
    | Some d => call d (SetTimeout 5000) ;; ret self
    | None => ret self
    end
  else ret self.

Definition Keysight34461A_meas_dcv (self : attributes)
  (meas_range resolution : string) : M (option pyfloat) :=
  let command := fmt ["MEASURE:VOLTAGE:DC? "; meas_range; ","; resolution] in
  try_except
    (d <- device_method (Some self) "query" ;;
     r <- call d (Query command) ;;
     dcv <- py_float r ;;
     ret (Some dcv))
    (fun e =>
       print (fmt ["Error querying MEASURE:VOLTAGE:DC: "; exn_msg e]) ;;
       ret None).

Definition Keysight34461A_meas_res (self : attributes)
  (meas_range resolution : string) : M (option pyfloat) :=
  let command := fmt ["MEASURE:RESISTANCE? "; meas_range; ","; resolution] in
  try_except
    (d <- device_method (Some self) "query" ;;
     r <- call d (Query command) ;;
     res <- py_float r ;;
     ret (Some res))
    (fun e =>
       print (fmt ["Error querying MEASURE:RESISTANCE: "; exn_msg e]) ;;
       ret None).

Definition Keysight34461A_dmm_test (self : attributes) : M unit :=
  if negb (String.eqb (attr_status self) "Connected") then
    print "Cannot run test, device not connected."
  else
    print "--- Keysight 34461A Demo Test ---" ;;
    factory_reset (Some self) ;;
    vout <- Keysight34461A_meas_dcv self "10" "DEF" ;;
    sleep 1000 ;;
    match vout with
    | Some x =>
        print (fmt ["DC Volts Measured (10V range, Auto Resolution): ";
                    str_of_float x; " V"])
    | None => ret tt
    end ;;
    res <- Keysight34461A_meas_res self "AUTO" "DEF" ;;
    sleep 1000 ;;
    match res with
    | Some x =>
        print (fmt ["Measured Resistance (Auto range, Auto Resolution): ";
                    str_of_float x; " Ohms"])
    | None => ret tt
    end ;;
    print "--- Demo Test Complete ---".

(** *** [rigol_dp800.py] *)

Definition DP800_set_voltage (self : object) (chan val : string) : M unit :=
  let command := fmt [":INST:NSEL "; chan] in
  d <- device_method self "write" ;;
  call d (Write command) ;;
  sleep DELAY_ms ;;
  let command := fmt [":VOLT "; val] in
  d <- device_method self "write" ;;
  call d (Write command) ;;
  sleep DELAY_ms.

Definition DP800_measure_voltage (self : object) (chan : string) : M pyfloat :=
  let command := fmt [":MEAS:VOLT? CH"; chan] in
  d <- device_method self "query" ;;
  volt <- call d (Query command) ;;
  volt <- py_float volt ;;
  sleep DELAY_ms ;;
  ret volt.

End Drivers.

(** ** Test doubles

    A concrete reading of the builtins on the plain ASCII numerals an
    instrument sends, and scripted devices. *)

Definition is_digit (c : ascii) : bool :=
  let n := nat_of_ascii c in (48 <=? n)%nat && (n <=? 57)%nat.

Fixpoint digits_value (s : string) (acc : Z) : option Z :=
  match s with
  | EmptyString => Some acc
  | String c s' =>
      if is_digit c
      then digits_value s' (10 * acc + Z.of_nat (nat_of_ascii c - 48))%Z
      else None
  end.

(** Unsigned or signed decimal numerals without blanks or underscores. *)
Definition plain_int (s : string) : option Z :=
  match s with
  | EmptyString => None
  | String "-" (String c r) => option_map Z.opp (digits_value (String c r) 0)
  | String "+" (String c r) => digits_value (String c r) 0
  | _ => digits_value s 0
  end.

(** A float is kept as the numeral it was read from: a mantissa of digits
    with at most one point, and an optional exponent. *)
Fixpoint mantissa_ok (s : string) (seen_digit seen_point : bool) : bool :=
  match s with
  | EmptyString => seen_digit
  | String c s' =>
      if is_digit c then mantissa_ok s' true seen_point
      else if Ascii.eqb c "." then negb seen_point && mantissa_ok s' seen_digit true
      else if Ascii.eqb c "e" || Ascii.eqb c "E" then
        seen_digit && match plain_int s' with Some _ => true | None => false end
      else false
  end.

Definition plain_float (s : string) : option string :=
  let body := match s with
              | String "-" r => r
              | String "+" r => r
              | _ => s
              end in
  if mantissa_ok body false false then Some s else None.

#[export] Instance plain_builtins : PyBuiltins := {|
  pyfloat := string;
  int_of_str := plain_int;
  float_of_str := plain_float
|}.

Definition io_error : exn := mkExn VisaIOError "VI_ERROR_TMO".

Fixpoint count_read_raw (tr : trace) : nat :=
  match tr with
  | [] => 0
  | EvCall ReadRaw _ :: t => S (count_read_raw t)
  | _ :: t => count_read_raw t
  end.

Definition is_query (cmd : string) (rq : request) : bool :=
  match rq with Query c => String.eqb c cmd | _ => false end.

(** An instrument that answers every preamble query and hands out a
    10-byte block. *)
Definition scope_reply (rq : request) : reply :=
  if is_query "*OPC?" rq then Ok "1"
  else if is_query "WFMPRE:YMULT?" rq then Ok "2.0e-3"
  else if is_query "WFMPRE:YZERO?" rq then Ok "0.0"
  else if is_query "WFMPRE:YOFF?" rq then Ok "127.5"
  else if is_query "WFMPRE:XINCR?" rq then Ok "4.0e-9"
  else match rq with
       | ReadRaw => Ok "#0abcdefgh"
       | _ => Ok ""
       end.

Definition good_scope : device := fun _ rq => scope_reply rq.


(** The same instrument, busy ([*OPC?] gives 0) until it has been asked
    once. *)
Definition busy_once_scope : device :=
  fun tr rq =>
    if is_query "*OPC?" rq then
      match tr with [] => Ok "0" | _ => Ok "1" end
    else scope_reply rq.

(** The same instrument with a block read that times out twice. *)
Definition curve_fails_twice_scope : device :=
  fun tr rq =>
    match rq with
    | ReadRaw => if (count_read_raw tr <? 2)%nat then Raise io_error
                 else scope_reply rq
    | _ => scope_reply rq
    end.

(** A disconnected instrument: every call times out. *)
Definition dead_scope : device := fun _ _ => Raise io_error.

(** A resource manager that finds [good_scope] behind every name, and one
    that finds nothing. *)
Definition rm_found : result resource_manager := Return (fun _ => Opened good_scope).

Definition rm_absent : result resource_manager :=
  Return (fun _ => OpenRaises io_error).

(** ** Vocabulary of the properties *)

(** The value a preamble query yields for a reply of the device. *)
Definition parsed_reply {B : PyBuiltins} (r : reply) : option pyfloat :=
  match r with
  | Ok s => float_of_str s
  | Raise _ => None
  end.

(** An [*OPC?] query that fails: the call raises, or [int] rejects the
    response. *)
Definition opc_failed {B : PyBuiltins} (r : reply) : bool :=
  match r with
  | Ok s => match int_of_str s with Some _ => false | None => true end
  | Raise _ => true
  end.

(** An [*OPC?] query that does not end the wait: it fails, or the response
    is the integer 0. *)
Definition opc_not_ready {B : PyBuiltins} (r : reply) : bool :=
  match r with
  | Ok s => match int_of_str s with Some n => Z.eqb n 0 | None => true end
  | Raise _ => true
  end.

(** The durations of the sleeps of a log, in order. *)
Fixpoint sleeps (tr : trace) : list nat :=
  match tr with
  | [] => []
  | EvSleep ms :: t => ms :: sleeps t
  | _ :: t => sleeps t
  end.

(** The replies to the device calls of a log, in order. *)
Fixpoint replies (tr : trace) : list reply :=
  match tr with
  | [] => []
  | EvCall _ r :: t => r :: replies t
  | _ :: t => replies t
  end.

(** No two device calls are adjacent in the log: between two consecutive
    calls something else (a sleep) happens. *)
Fixpoint calls_separated (tr : trace) : bool :=
  match tr with
  | [] => true
  | EvCall _ _ :: t =>
      match t with
      | EvCall _ _ :: _ => false
      | _ => calls_separated t
      end
  | _ :: t => calls_separated t
  end.

(** The device calls of one complete pass of [acquire_waveform], as the
    source issues them. *)
Definition attempt_commands (chan width enc : string) : list request :=
  [ Write (String.append "DATA:SOU CH" chan);
    Write (String.append "DATA:WIDTH " width);
    Write (String.append "DATA:ENC " enc);
    Write "*WAI";
    Query "WFMPRE:YMULT?";
    Query "WFMPRE:YZERO?";
    Query "WFMPRE:YOFF?";
    Query "WFMPRE:XINCR?";
    Write "CURVE?";
    ReadRaw ].

(** The eight-step sequence with nothing interleaved, followed by the
    block read. *)
Definition eight_step_commands (chan width enc : string) : list request :=
  [ Write (String.append "DATA:SOU CH" chan);
    Write (String.append "DATA:WIDTH " width);
    Write (String.append "DATA:ENC " enc);
    Query "WFMPRE:YMULT?";
    Query "WFMPRE:YZERO?";
    Query "WFMPRE:YOFF?";
    Query "WFMPRE:XINCR?";
    Write "CURVE?";
    ReadRaw ].

(** The three preamble queries whose exceptions stay inside their method
    when called from [acquire_waveform]. *)
Definition swallowed_query (rq : request) : bool :=
  is_query "WFMPRE:YZERO?" rq || is_query "WFMPRE:YOFF?" rq
  || is_query "WFMPRE:XINCR?" rq.


(** The discipline of one pass of [acquire_waveform]: a failed device call
    is the last device call of the pass, unless it is one of the three
    swallowed queries, after which the pass goes on to further calls. *)
Fixpoint abort_discipline (new : trace) : Prop :=
  match new with
  | [] => True
  | EvCall rq (Raise _) :: t =>
      (if swallowed_query rq then commands t <> [] else commands t = [])
      /\ abort_discipline t
  | _ :: t => abort_discipline t
  end.

(** The log holds a failed device call other than a swallowed query. *)
Fixpoint has_fatal_failure (new : trace) : bool :=
  match new with
  | [] => false
  | EvCall rq (Raise _) :: t => negb (swallowed_query rq) || has_fatal_failure t
  | _ :: t => has_fatal_failure t
  end.



(** The VISA resource name [connect_ethernet_instrument] opens. *)
Definition ethernet_resource (ip_address : string) (port : Z)
  (use_socket : bool) : string :=
  if use_socket then
    String.append "TCPIP0::" (String.append ip_address
      (String.append "::" (String.append (str_of_int port) "::SOCKET")))
  else
    String.append "TCPIP0::" (String.append ip_address "::INSTR").

(** The VISA resource name [DPO4000.__init__] has opened for a connection
    method that is "USB" or "IP". *)
Definition init_resource (connection_method address : string) : string :=
  if String.eqb connection_method "USB" then address
  else ethernet_resource address 5025 false.

(** [p] is an initial segment of [l]. *)
Definition initial_segment {A} (l p : list A) : Prop := exists rest, l = p ++ rest.

(** A computation that only appends to the log, as every one of the driver
    does, and appends events that satisfy [P]. *)
Definition appends {A} (P : trace -> Prop) (m : M A) : Prop :=
  forall tr, exists new, snd (m tr) = tr ++ new /\ P new.

(** Every device call that fails in the log is directly followed by a sleep
    of the poll interval. *)
Fixpoint failed_then_sleep {B : PyBuiltins} (tr : trace) : Prop :=
  match tr with
  | [] => True
  | EvCall _ r :: t =>
      (opc_failed r = true -> exists t', t = EvSleep poll_interval_ms :: t')
      /\ failed_then_sleep t
  | _ :: t => failed_then_sleep t
  end.

(** *** Further test doubles *)

(** An instrument that reports 0 to [*OPC?] until [k] calls have been
    made on it. *)
Definition busy_until (k : nat) : device :=
  fun tr rq =>
    if is_query "*OPC?" rq then
      if (List.length (commands tr) <? k)%nat then Ok "0" else Ok "1"
    else scope_reply rq.

(** An instrument whose identification has four fields. *)
Definition tek_scope : device :=
  fun _ rq =>
    if is_query "*IDN?" rq then Ok "TEKTRONIX,DPO4034,C010101,CF:91.1CT"
    else scope_reply rq.

Definition value_error : exn := mkExn ValueError "invalid resource name".

(** A resource manager with three names: a scope, an instrument that is
    switched off, and a name it cannot parse. *)
Definition rm_bench : resource_manager :=
  fun name =>
    if String.eqb name "USB0::SCOPE" then Opened tek_scope
    else if String.eqb name "USB0::OFF" then OpenRaises io_error
    else OpenRaises value_error.

(** A power supply that reads 5 V on every channel. *)
Definition bench_psu : device :=
  fun _ rq => match rq with Query _ => Ok "5.000" | _ => Ok "" end.

(** A driver object connected to the device [d] over USB. *)
Definition connected_to (d : device) : object :=
  Some (mkAttributes (Some d) (Some "USB0::BENCH") "Connected" (Some "USB")).

(** [str] of a float of the plain builtins, which keep the numeral. *)
Definition plain_str : @pyfloat plain_builtins -> string := fun x => x.

(** *** Further vocabulary *)

(** The lines printed in a log, in order. *)
Fixpoint prints (tr : trace) : list string :=
  match tr with
  | [] => []
  | EvPrint msg :: t => msg :: prints t
  | _ :: t => prints t
  end.

Definition is_ok (r : reply) : bool :=
  match r with Ok _ => true | Raise _ => false end.

(** The log [last] is a complete pass of [acquire_waveform] and [w] holds
    what was read in it. *)
Definition pass_yields {B : PyBuiltins} (chan width enc : string)
  (last : trace) (w : waveform) : Prop :=
  commands last = attempt_commands chan width enc
  /\ exists a b c d sy rz ro rx e,
       replies last
       = [Ok a; Ok b; Ok c; Ok d; Ok sy; rz; ro; rx; Ok e; Ok (data w)]
       /\ float_of_str sy = Some (ymult w)
       /\ yzero w = parsed_reply rz
       /\ yoff w = parsed_reply ro
       /\ xincr w = parsed_reply rx.

(** The number of commas of a string. *)
Fixpoint count_commas (s : string) : nat :=
  match s with
  | EmptyString => 0
  | String c r => (if Ascii.eqb c "," then 1 else 0) + count_commas r
  end.

(** The lines [list_instruments] prints under the name of an instrument
    that answered [r] to [*IDN?]. *)
Definition idn_lines (r : string) : list string :=
  let parts := split_comma (strip r) in
  if (count_commas (strip r) =? 3)%nat then
    [ fmt ["   Manufacturer: "; nth_part parts 0];
      fmt ["   Model: "; nth_part parts 1];
      fmt ["   Serial Number: "; nth_part parts 2];
      fmt ["   Firmware Version: "; nth_part parts 3] ]
  else ["   Unrecognized IDN format."].

(** A line that names an instrument in the listing. *)
Definition is_header (line : string) : bool := String.prefix " - " line.

(** The resource opens. *)
Definition opens (rm : resource_manager) (name : string) : bool :=
  match rm name with Opened _ => true | OpenRaises _ => false end.

(** Opening the resource and asking it [*IDN?] raises nothing but
    [VisaIOError]. *)
Definition visa_errors_only (rm : resource_manager) (name : string) : Prop :=
  match rm name with
  | Opened d =>
      match d [] (Query "*IDN?") with
      | Ok _ => True
      | Raise e => is_VisaIOError e = true
      end
  | OpenRaises e => is_VisaIOError e = true
  end.

(** The device a driver object talks to, if it has one. *)
Definition connected_device (self : object) : option device :=
  match self with
  | Some a => attr_device a
  | None => None
  end.

(** ** Basic facts about logs and loops *)

Lemma added_app (tr new : trace) : added tr (tr ++ new) = new.
Proof. induction tr as [|x tr IH]; [destruct new|]; simpl; auto. Qed.

Lemma added_refl (tr : trace) : added tr tr = [].
Proof. rewrite <- (app_nil_r tr) at 2. apply added_app. Qed.

Lemma commands_app (t1 t2 : trace) :
  commands (t1 ++ t2) = commands t1 ++ commands t2.
Proof.
  induction t1 as [|[rq r|ms|msg] t1 IH]; simpl; auto. now rewrite IH.
Qed.

Lemma sleeps_app (t1 t2 : trace) : sleeps (t1 ++ t2) = sleeps t1 ++ sleeps t2.
Proof.
  induction t1 as [|[rq r|ms|msg] t1 IH]; simpl; auto. now rewrite IH.
Qed.

Lemma replies_app (t1 t2 : trace) : replies (t1 ++ t2) = replies t1 ++ replies t2.
Proof.
  induction t1 as [|[rq r|ms|msg] t1 IH]; simpl; auto. now rewrite IH.
Qed.

Lemma loop_until_appends {A} (P : trace -> Prop) (body : M (option A)) :
  P [] -> (forall a b, P a -> P b -> P (a ++ b)) ->
  appends P body ->
  forall fuel tr, exists new, snd (loop_until body fuel tr) = tr ++ new /\ P new.
Proof.
  intros Hnil Happ Hb fuel. induction fuel as [|fuel IH]; intros tr; simpl.
  - exists []. now rewrite app_nil_r.
  - destruct (Hb tr) as [new [Hnew HP]].
    destruct (body tr) as [[[a|]|e] tr'] eqn:E; simpl in *; subst tr'.
    + now exists new.
    + destruct (IH (tr ++ new)) as [new' [Hn' HP']]. exists (new ++ new').
      rewrite Hn', app_assoc. auto.
    + now exists new.
Qed.

(** More fuel does not change the outcome of a loop that has returned:
    [None] is only ever the loop that has not yet finished. *)
Lemma loop_until_more_fuel {A} (body : M (option A)) fuel r tr tr' :
  loop_until body fuel tr = (Some r, tr') ->
  forall extra, loop_until body (fuel + extra) tr = (Some r, tr').
Proof.
  revert tr. induction fuel as [|fuel IH]; intros tr H extra; simpl in *.
  - discriminate.
  - destruct (body tr) as [[[a|]|e] tr1]; auto.
Qed.

(** A loop whose body never yields runs for as long as it is given fuel. *)
Lemma loop_until_forever {A} (body : M (option A)) :
  (forall tr, fst (body tr) = Return None) ->
  forall fuel tr, fst (loop_until body fuel tr) = None.
Proof.
  intros Hb fuel. induction fuel as [|fuel IH]; intros tr; simpl; auto.
  specialize (Hb tr). destruct (body tr) as [[[a|]|e] tr1]; simpl in *;
    try discriminate. apply IH.
Qed.

(** ** The waveform-preamble queries *)

Section Preamble.

Context {B : PyBuiltins}.
Variable dev : device.

(** The three queries without [*WAI] have the same shape; [name] is the
    text of the error message. *)
Lemma preamble_query_spec (command name : string) (tr : trace) :
  try_except
    (r <- call dev (Query command) ;; x <- py_float r ;; ret (Some x))
    (fun e => print (String.append name (exn_msg e)) ;; ret None) tr
  = (Return (parsed_reply (dev tr (Query command))),
     tr ++ EvCall (Query command) (dev tr (Query command))
        :: match dev tr (Query command) with
           | Ok s => match float_of_str s with
                     | Some _ => []
                     | None => [EvPrint (String.append name
                                 "could not convert string to float")]
                     end
           | Raise e => [EvPrint (String.append name (exn_msg e))]
           end).
Proof.
  unfold try_except, bind, call, py_float, print, ret, raise, parsed_reply.
  destruct (dev tr (Query command)) as [s|e]; simpl.
  - destruct (float_of_str s); simpl; now rewrite <- ?app_assoc.
  - now rewrite <- app_assoc.
Qed.

Lemma wfmpre_yzero_spec (tr : trace) :
  fst (wfmpre_yzero dev tr) = Return (parsed_reply (dev tr (Query "WFMPRE:YZERO?"))).
Proof. unfold wfmpre_yzero. now rewrite preamble_query_spec. Qed.

Lemma wfmpre_yoff_spec (tr : trace) :
  fst (wfmpre_yoff dev tr) = Return (parsed_reply (dev tr (Query "WFMPRE:YOFF?"))).
Proof. unfold wfmpre_yoff. now rewrite preamble_query_spec. Qed.

Lemma wfmpre_xincr_spec (tr : trace) :
  fst (wfmpre_xincr dev tr) = Return (parsed_reply (dev tr (Query "WFMPRE:XINCR?"))).
Proof. unfold wfmpre_xincr. now rewrite preamble_query_spec. Qed.

(** [wfmpre_ymult] writes [*WAI] first; when that write raises, the query
    is not sent. *)
Lemma wfmpre_ymult_spec (tr : trace) :
  fst (wfmpre_ymult dev tr)
  = Return match dev tr (Write "*WAI") with
           | Ok s =>
               parsed_reply
                 (dev (tr ++ [EvCall (Write "*WAI") (Ok s)]) (Query "WFMPRE:YMULT?"))
           | Raise _ => None
           end.
Proof.
  unfold wfmpre_ymult, wai, try_except, bind, call, py_float, print, ret,
    raise, parsed_reply.
  destruct (dev tr (Write "*WAI")) as [s|e]; simpl; auto.
  destruct (dev _ (Query "WFMPRE:YMULT?")) as [s'|e]; simpl; auto.
  destruct (float_of_str s'); simpl; auto.
Qed.

(** C8: each waveform-preamble query method ([wfmpre_ymult],
    [wfmpre_yzero], [wfmpre_yoff], [wfmpre_xincr]) returns to its caller
    for every behaviour of the device and never raises: the value is the
    response read as a float when the query succeeds and the response is
    numeric, and [None] after any failure (an exception of the transport,
    including that of the [*WAI] write of [wfmpre_ymult], or a response
    that [float] rejects); the exception itself is not part of the
    result. *)
Theorem wfmpre_never_raises (tr : trace) :
  fst (wfmpre_ymult dev tr)
  = Return match dev tr (Write "*WAI") with
           | Ok s => parsed_reply (dev (tr ++ [EvCall (Write "*WAI") (Ok s)])
                                       (Query "WFMPRE:YMULT?"))
           | Raise _ => None
           end
  /\ fst (wfmpre_yzero dev tr)
     = Return (parsed_reply (dev tr (Query "WFMPRE:YZERO?")))
  /\ fst (wfmpre_yoff dev tr)
     = Return (parsed_reply (dev tr (Query "WFMPRE:YOFF?")))
  /\ fst (wfmpre_xincr dev tr)
     = Return (parsed_reply (dev tr (Query "WFMPRE:XINCR?"))).
Proof.
  repeat split.
  - apply wfmpre_ymult_spec.
  - apply wfmpre_yzero_spec.
  - apply wfmpre_yoff_spec.
  - apply wfmpre_xincr_spec.
Qed.

End Preamble.

(** ** The readiness poll *)

Section Readiness.

Context {B : PyBuiltins}.
Variable dev : device.

(** One pass through the loop body: the query, and the sleep of the
    [except] branch when the query failed. *)
Lemma wait_until_ready_body_spec (tr : trace) :
  wait_until_ready_body dev tr
  = (Return (if opc_not_ready (dev tr (Query "*OPC?")) then None else Some tt),
     tr ++ EvCall (Query "*OPC?") (dev tr (Query "*OPC?"))
        :: if opc_failed (dev tr (Query "*OPC?"))
           then [EvSleep poll_interval_ms] else []).
Proof.
  unfold wait_until_ready_body, try_except, bind, call, py_int, sleep, ret,
    raise, opc_not_ready, opc_failed.
  destruct (dev tr (Query "*OPC?")) as [s|e]; simpl.
  - destruct (int_of_str s) as [n|]; simpl.
    + now destruct (Z.eqb n 0).
    + now rewrite <- app_assoc.
  - now rewrite <- app_assoc.
Qed.

Lemma failed_then_sleep_split (new : trace) :
  failed_then_sleep new ->
  forall pre rq r post,
    new = pre ++ EvCall rq r :: post ->
    opc_failed r = true ->
    exists post', post = EvSleep poll_interval_ms :: post'.
Proof.
  induction new as [|ev new IH]; intros Hok pre rq r post Heq Hf.
  - now destruct pre.
  - destruct pre as [|ev' pre]; simpl in Heq; injection Heq as -> ->.
    + simpl in Hok. now apply Hok.
    + apply (IH) with (pre := pre) (rq := rq) (r := r); auto.
      destruct ev' as [rq' r'|ms|msg]; simpl in Hok; tauto.
Qed.

(** The log of the loop, pass by pass. *)
Lemma wait_until_ready_log (fuel : nat) :
  forall tr, exists new,
    snd (wait_until_ready dev fuel tr) = tr ++ new
    /\ failed_then_sleep new
    /\ sleeps new
       = repeat poll_interval_ms (List.length (filter opc_failed (replies new)))
    /\ Forall (fun rq => rq = Query "*OPC?") (commands new).
Proof.
  unfold wait_until_ready.
  induction fuel as [|fuel IH]; intros tr; simpl.
  - exists []. rewrite app_nil_r. simpl. auto.
  - rewrite wait_until_ready_body_spec.
    set (r := dev tr (Query "*OPC?")).
    set (blk := EvCall (Query "*OPC?") r
                :: if opc_failed r then [EvSleep poll_interval_ms] else []).
    assert (Hblk : forall rest,
               failed_then_sleep rest ->
               sleeps rest
               = repeat poll_interval_ms (List.length (filter opc_failed (replies rest))) ->
               Forall (fun rq => rq = Query "*OPC?") (commands rest) ->
               failed_then_sleep (blk ++ rest)
               /\ sleeps (blk ++ rest)
                  = repeat poll_interval_ms
                      (List.length (filter opc_failed (replies (blk ++ rest))))
               /\ Forall (fun rq => rq = Query "*OPC?") (commands (blk ++ rest))).
    { intros rest H1 H2 H3. subst blk. simpl.
      destruct (opc_failed r) eqn:Hr; simpl; rewrite ?Hr, ?H2; simpl;
        repeat split; eauto; discriminate. }
    destruct (opc_not_ready r) eqn:Hnr.
    + destruct (IH (tr ++ blk)) as [new (Hn & H1 & H2 & H3)].
      exists (blk ++ new). rewrite Hn, app_assoc. split; auto.
    + exists blk. split; auto.
      specialize (Hblk [] I eq_refl (Forall_nil _)).
      now rewrite app_nil_r in Hblk.
Qed.

(** C4: when the first [*OPC?] query of [wait_until_ready] is answered by
    a response that reads as a nonzero integer, the method returns after
    that single query: the log holds this query and nothing else, no
    further query and no sleep. *)
Theorem wait_until_ready_returns_at_once (fuel : nat) (tr : trace)
  (s : string) (n : Z) :
  dev tr (Query "*OPC?") = Ok s ->
  int_of_str s = Some n ->
  n <> 0%Z ->
  wait_until_ready dev (S fuel) tr
  = (Some (Return tt), tr ++ [EvCall (Query "*OPC?") (Ok s)]).
Proof.
  intros Hs Hn Hnz. unfold wait_until_ready. simpl.
  rewrite wait_until_ready_body_spec, Hs. simpl. rewrite Hn.
  apply Z.eqb_neq in Hnz. now rewrite Hnz.
Qed.

(** C3, as amended: whenever an [*OPC?] query inside [wait_until_ready]
    fails (the call raises, or the response does not read as an
    integer), the method sleeps for the poll interval, 0.1 s, before it
    does anything else, in particular before the next query. *)
Theorem wait_until_ready_sleeps_after_failure (fuel : nat) (tr : trace)
  (pre post : trace) (r : reply) :
  added tr (snd (wait_until_ready dev fuel tr))
  = pre ++ EvCall (Query "*OPC?") r :: post ->
  opc_failed r = true ->
  exists post', post = EvSleep poll_interval_ms :: post'.
Proof.
  intros Heq Hf.
  destruct (wait_until_ready_log fuel tr) as [new (Hn & Hok & _)].
  rewrite Hn, added_app in Heq.
  eapply failed_then_sleep_split; eauto.
Qed.

(** With a device that is never ready the loop makes one query per pass
    and does not leave. *)
Lemma wait_until_ready_forever :
  (forall tr, opc_not_ready (dev tr (Query "*OPC?")) = true) ->
  forall fuel tr,
    fst (wait_until_ready dev fuel tr) = None
    /\ List.length (commands (added tr (snd (wait_until_ready dev fuel tr)))) = fuel.
Proof.
  intros Hnr fuel. unfold wait_until_ready.
  induction fuel as [|fuel IH]; intros tr; simpl.
  - now rewrite added_refl.
  - rewrite wait_until_ready_body_spec, Hnr.
    match goal with |- context [loop_until _ _ (tr ++ ?b)] => set (blk := b) end.
    destruct (IH (tr ++ blk)) as [H1 H2]. split; auto.
    destruct (loop_until_appends (fun _ => True) (wait_until_ready_body dev))
      with (fuel := fuel) (tr := tr ++ blk) as [new [Hn _]]; auto.
    { intros t. rewrite wait_until_ready_body_spec. simpl. eauto. }
    rewrite Hn in *. rewrite added_app in H2.
    rewrite <- app_assoc, added_app, commands_app.
    subst blk. destruct (opc_failed _); simpl; now rewrite H2.
Qed.

End Readiness.

(** ** The acquisition sequence *)

Section Acquisition.

Context {B : PyBuiltins}.
Variable dev : device.

Ltac unfold_attempt :=
  unfold acquire_attempt, data_source, data_width, data_encoding,
    wfmpre_ymult, wfmpre_yzero, wfmpre_yoff, wfmpre_xincr, wai,
    py_float_of_value, py_float, try_except, bind, call, print, ret, raise.

(** Case analysis on the next reply of the device, or on the next
    response handed to [float]. *)
Ltac step_device :=
  match goal with
  | |- context [dev ?t ?rq] => destruct (dev t rq) eqn:?; simpl
  | |- context [float_of_str ?s] => destruct (float_of_str s) eqn:?; simpl
  end.

(** One pass, along every path through its ten device calls. *)
Lemma acquire_attempt_log (chan width enc : string) (tr : trace) :
  exists new,
    snd (acquire_attempt dev chan width enc tr) = tr ++ new
    /\ sleeps new = []
    /\ initial_segment (attempt_commands chan width enc) (commands new)
    /\ (forall w, fst (acquire_attempt dev chan width enc tr) = Return w ->
          commands new = attempt_commands chan width enc)
    /\ abort_discipline new
    /\ (has_fatal_failure new = true ->
          exists e, fst (acquire_attempt dev chan width enc tr) = Raised e)
    /\ (exists r rest,
          new = EvCall (Write (String.append "DATA:SOU CH" chan)) r :: rest).
Proof.
  unfold_attempt.
  repeat step_device.
  all: (eexists; split; [rewrite <- ?app_assoc; simpl; reflexivity|]).
  all: (simpl; repeat split; unfold initial_segment; simpl; eauto;
        try discriminate; try congruence).
  all: try (eexists; reflexivity).
Qed.

(** The loop body: the bare [except] turns an exception of the pass into
    another turn of the loop. *)
Lemma acquire_waveform_body_spec (chan width enc : string) (tr : trace) :
  acquire_waveform_body dev chan width enc tr
  = (match fst (acquire_attempt dev chan width enc tr) with
     | Return w => Return (Some w)
     | Raised _ => Return None
     end,
     snd (acquire_attempt dev chan width enc tr)).
Proof.
  unfold acquire_waveform_body, try_except, bind, ret.
  now destruct (acquire_attempt dev chan width enc tr) as [[w|e] tr'].
Qed.


Lemma acquire_waveform_body_appends (P : trace -> Prop)
  (chan width enc : string) :
  (forall tr, exists new,
      snd (acquire_attempt dev chan width enc tr) = tr ++ new /\ P new) ->
  appends P (acquire_waveform_body dev chan width enc).
Proof.
  intros H tr. rewrite acquire_waveform_body_spec. apply H.
Qed.







(** C2, as amended: for every channel, width and encoding, a call of
    [acquire_waveform] that returns has issued, in its last pass, exactly
    the commands DATA:SOU CH{chan}, DATA:WIDTH {width}, DATA:ENC {enc},
    *WAI, WFMPRE:YMULT?, WFMPRE:YZERO?, WFMPRE:YOFF?, WFMPRE:XINCR?, CURVE?
    and then the block read, in this order and with no other command among
    them; the [*WAI] write of [wfmpre_ymult] stands between the encoding
    and the gain query.  Whatever was issued before that pass are initial
    segments of the same sequence, one per abandoned pass. *)
Theorem acquire_waveform_commands (fuel : nat) (chan width enc : string)
  (tr tr' : trace) (wf : waveform) :
  acquire_waveform dev fuel chan width enc tr = (Some (Return wf), tr') ->
  exists failed : list (list request),
    List.length failed < fuel
    /\ Forall (initial_segment (attempt_commands chan width enc)) failed
    /\ commands (added tr tr')
       = List.concat failed ++ attempt_commands chan width enc.
Proof.
  revert tr tr' wf. unfold acquire_waveform.
  induction fuel as [|fuel IH]; intros tr tr' wf H; simpl in H.
  - discriminate.
  - rewrite acquire_waveform_body_spec in H.
    destruct (acquire_attempt_log chan width enc tr)
      as [new (Hn & _ & Hseg & Hfull & _)].
    rewrite Hn in H.
    destruct (fst (acquire_attempt dev chan width enc tr)) as [w|e].
    + injection H as _ <-. exists []. rewrite added_app. simpl.
      repeat split; [lia | constructor | now apply (Hfull w)].
    + destruct (loop_until_appends (fun _ => True)
                  (acquire_waveform_body dev chan width enc))
        with (fuel := fuel) (tr := tr ++ new) as [new' [Hn' _]]; auto.
      { apply acquire_waveform_body_appends. intros t.
        destruct (acquire_attempt_log chan width enc t) as [n (Ht & _)]. eauto. }
      destruct (IH (tr ++ new) tr' wf H) as [failed (Hlen & Hall & Hcmd)].
      rewrite H in Hn'. simpl in Hn'. subst tr'.
      rewrite added_app in Hcmd.
      exists (commands new :: failed).
      rewrite <- app_assoc, added_app, commands_app, Hcmd. simpl.
      repeat split; [lia | now constructor | now rewrite app_assoc].
Qed.

(** The acquisition loop never sleeps. *)
Lemma acquire_waveform_no_sleep (fuel : nat) (chan width enc : string)
  (tr : trace) :
  sleeps (added tr (snd (acquire_waveform dev fuel chan width enc tr))) = [].
Proof.
  destruct (loop_until_appends (fun new => sleeps new = [])
              (acquire_waveform_body dev chan width enc))
    with (fuel := fuel) (tr := tr) as [new [Hn Hs]]; auto.
  - intros a b Ha Hb. now rewrite sleeps_app, Ha, Hb.
  - apply acquire_waveform_body_appends. intros t.
    destruct (acquire_attempt_log chan width enc t) as [n (Ht & Hs & _)]. eauto.
  - unfold acquire_waveform. now rewrite Hn, added_app.
Qed.

(** C7, as amended: the two retry loops of the driver differ.  The
    readiness loop of [wait_until_ready] sleeps the fixed poll interval,
    0.1 s, once after every query that failed, and every sleep in its log
    has that duration.  The retry loop of [acquire_waveform] performs no
    sleep at all: a new pass follows an abandoned one at once. *)
Theorem retry_loops_sleeps (fuel : nat) (chan width enc : string)
  (tr : trace) :
  sleeps (added tr (snd (wait_until_ready dev fuel tr)))
  = repeat poll_interval_ms
      (List.length (filter opc_failed
         (replies (added tr (snd (wait_until_ready dev fuel tr))))))
  /\ sleeps (added tr (snd (acquire_waveform dev fuel chan width enc tr))) = [].
Proof.
  split.
  - destruct (wait_until_ready_log dev fuel tr) as [new (Hn & _ & Hs & _)].
    now rewrite Hn, added_app.
  - apply acquire_waveform_no_sleep.
Qed.

(** C5: neither retry loop is bounded.  On a device whose [*OPC?] query
    always raises, is unreadable or reads as 0, [wait_until_ready] is
    still looping after any number of passes, having sent one query per
    pass; on a device with which every pass of the acquisition sequence
    raises, [acquire_waveform] is still looping after any number of
    passes.  No count of passes makes either loop return. *)
Theorem retry_loops_unbounded (chan width enc : string) :
  ((forall tr, opc_not_ready (dev tr (Query "*OPC?")) = true) ->
   forall fuel tr,
     fst (wait_until_ready dev fuel tr) = None
     /\ List.length (commands (added tr (snd (wait_until_ready dev fuel tr))))
        = fuel)
  /\ ((forall tr, exists e,
          fst (acquire_attempt dev chan width enc tr) = Raised e) ->
      forall fuel tr,
        fst (acquire_waveform dev fuel chan width enc tr) = None).
Proof.
  split.
  - apply wait_until_ready_forever.
  - intros Hr fuel tr. unfold acquire_waveform.
    apply loop_until_forever. intros t.
    rewrite acquire_waveform_body_spec.
    destruct (Hr t) as [e He]. now rewrite He.
Qed.

Lemma count_read_raw_app (t1 t2 : trace) :
  count_read_raw (t1 ++ t2) = count_read_raw t1 + count_read_raw t2.
Proof.
  induction t1 as [|[[c|c| |ms] r|ms|msg] t1 IH]; simpl; auto.
Qed.

(** One pass on a device that answers everything but, possibly, the block
    read, and whose gain is numeric: all ten calls are made, and the block
    read decides the outcome. *)
Lemma acquire_attempt_reaches_read (chan width enc : string) :
  (forall t rq, rq <> ReadRaw -> exists s, dev t rq = Ok s) ->
  (forall t s, dev t (Query "WFMPRE:YMULT?") = Ok s -> float_of_str s <> None) ->
  forall tr, exists pre,
    snd (acquire_attempt dev chan width enc tr)
    = tr ++ pre ++ [EvCall ReadRaw (dev (tr ++ pre) ReadRaw)]
    /\ count_read_raw pre = 0
    /\ commands (pre ++ [EvCall ReadRaw (dev (tr ++ pre) ReadRaw)])
       = attempt_commands chan width enc
    /\ match dev (tr ++ pre) ReadRaw with
       | Ok _ => exists w, fst (acquire_attempt dev chan width enc tr) = Return w
       | Raise e => fst (acquire_attempt dev chan width enc tr) = Raised e
       end.
Proof.
  intros Hans Hnum tr. unfold_attempt.
  repeat match goal with
  | |- context [dev ?t (Write ?c)] =>
      let s := fresh "s" in let Hs := fresh "Hs" in
      destruct (Hans t (Write c)) as [s Hs]; [discriminate|]; rewrite Hs; simpl
  | |- context [dev ?t (Query ?c)] =>
      let s := fresh "s" in let Hs := fresh "Hs" in
      destruct (Hans t (Query c)) as [s Hs]; [discriminate|];
      try (pose proof (Hnum t s Hs)); rewrite Hs; simpl
  | |- context [float_of_str ?s] => destruct (float_of_str s) eqn:?; simpl
  end; try congruence.
  all: rewrite <- ?app_assoc; simpl.
  all: match goal with
       | |- context [dev (?h ++ ?p) ReadRaw] =>
           exists p; destruct (dev (h ++ p) ReadRaw) eqn:Hread; simpl;
           rewrite <- ?app_assoc; simpl; repeat split; eauto
       end.
Qed.

(** C6: on a device whose block read after [CURVE?] raises in the first
    two passes and that answers every other call, with a numeric gain,
    [acquire_waveform] makes exactly three passes, each one the complete
    sequence from the select-data-source write to the block read, and
    returns a waveform. *)
Theorem acquire_waveform_third_attempt (fuel : nat) (chan width enc : string)
  (tr : trace) :
  count_read_raw tr = 0 ->
  (forall t rq, rq <> ReadRaw -> exists s, dev t rq = Ok s) ->
  (forall t s, dev t (Query "WFMPRE:YMULT?") = Ok s -> float_of_str s <> None) ->
  (forall t, count_read_raw t < 2 -> exists e, dev t ReadRaw = Raise e) ->
  (forall t, 2 <= count_read_raw t -> exists s, dev t ReadRaw = Ok s) ->
  3 <= fuel ->
  exists w new,
    acquire_waveform dev fuel chan width enc tr = (Some (Return w), tr ++ new)
    /\ commands new
       = attempt_commands chan width enc ++ attempt_commands chan width enc
         ++ attempt_commands chan width enc.
Proof.
  intros H0 Hans Hnum Hfail Hgood Hfuel.
  destruct fuel as [|[|[|fuel]]]; try lia. clear Hfuel.
  pose proof (acquire_attempt_reaches_read chan width enc Hans Hnum) as Hpass.
  unfold acquire_waveform.
  (* first pass *)
  destruct (Hpass tr) as [p1 (Hs1 & Hc1 & Hcmd1 & Hr1)].
  destruct (Hfail (tr ++ p1)) as [e1 He1].
  { rewrite count_read_raw_app. lia. }
  rewrite He1 in *.
  set (tr1 := tr ++ p1 ++ [EvCall ReadRaw (Raise e1)]) in *.
  assert (Hn1 : count_read_raw tr1 = 1).
  { subst tr1. rewrite !count_read_raw_app. simpl. lia. }
  (* second pass *)
  destruct (Hpass tr1) as [p2 (Hs2 & Hc2 & Hcmd2 & Hr2)].
  destruct (Hfail (tr1 ++ p2)) as [e2 He2].
  { rewrite count_read_raw_app. lia. }
  rewrite He2 in *.
  set (tr2 := tr1 ++ p2 ++ [EvCall ReadRaw (Raise e2)]) in *.
  assert (Hn2 : count_read_raw tr2 = 2).
  { subst tr2. rewrite !count_read_raw_app. simpl. lia. }
  (* third pass *)
  destruct (Hpass tr2) as [p3 (Hs3 & Hc3 & Hcmd3 & Hr3)].
  destruct (Hgood (tr2 ++ p3)) as [s3 Hok3].
  { rewrite count_read_raw_app. lia. }
  rewrite Hok3 in *. destruct Hr3 as [w Hw].
  exists w.
  exists ((p1 ++ [EvCall ReadRaw (Raise e1)])
          ++ (p2 ++ [EvCall ReadRaw (Raise e2)])
          ++ (p3 ++ [EvCall ReadRaw (Ok s3)])).
  split.
  - cbn [loop_until].
    rewrite (acquire_waveform_body_spec chan width enc tr), Hr1, Hs1.
    fold tr1.
    rewrite (acquire_waveform_body_spec chan width enc tr1), Hr2, Hs2.
    fold tr2.
    rewrite (acquire_waveform_body_spec chan width enc tr2), Hw, Hs3.
    subst tr2 tr1. now rewrite <- !app_assoc.
  - rewrite (commands_app (p1 ++ _) _), (commands_app (p2 ++ _) _).
    now rewrite Hcmd1, Hcmd2, Hcmd3.
Qed.

End Acquisition.

(** ** Connection and construction *)

Section Connection.

Variable RM : result resource_manager.    (* pyvisa.ResourceManager() *)

Lemma connect_usb_instrument_status (address : string) (c : connection) :
  connect_usb_instrument RM address = Return c ->
  (exists d, c = (Some d, Some address, "Connected"))
  \/ c = (None, None, "Not Connected").
Proof.
  unfold connect_usb_instrument, get_resource_manager.
  destruct RM as [rm|e]; [|discriminate].
  destruct (rm address) as [d|e].
  - intros [= <-]. eauto.
  - destruct (is_VisaIOError e); [|discriminate]. intros [= <-]. auto.
Qed.

Lemma connect_ethernet_instrument_status (ip_address : string) (port : Z)
  (use_socket : bool) (c : connection) :
  connect_ethernet_instrument RM ip_address port use_socket = Return c ->
  (exists d, c = (Some d, Some (ethernet_resource ip_address port use_socket),
                  "Connected"))
  \/ c = (None, None, "Not Connected").
Proof.
  unfold connect_ethernet_instrument, get_resource_manager.
  destruct RM as [rm|e]; [|discriminate].
  fold (ethernet_resource ip_address port use_socket).
  destruct (rm _) as [d|e].
  - intros [= <-]. eauto.
  - destruct (is_VisaIOError e); [|discriminate]. intros [= <-]. auto.
Qed.

(** C9: for every address, [connect_usb_instrument] and
    [connect_ethernet_instrument] return the triple with the opened
    device, the resource name and the status "Connected" when
    [open_resource] succeeds, and exactly (None, None, "Not Connected")
    when it raises [VisaIOError]; a triple they return never has another
    status, and its device is [None] exactly in the second case. *)
Theorem connect_instrument_status (rm : resource_manager)
  (address ip_address : string) (port : Z) (use_socket : bool) :
  RM = Return rm ->
  (forall d, rm address = Opened d ->
     connect_usb_instrument RM address
     = Return (Some d, Some address, "Connected"))
  /\ (forall e, rm address = OpenRaises e -> is_VisaIOError e = true ->
        connect_usb_instrument RM address
        = Return (None, None, "Not Connected"))
  /\ (forall d, rm (ethernet_resource ip_address port use_socket) = Opened d ->
        connect_ethernet_instrument RM ip_address port use_socket
        = Return (Some d, Some (ethernet_resource ip_address port use_socket),
                  "Connected"))
  /\ (forall e, rm (ethernet_resource ip_address port use_socket) = OpenRaises e ->
        is_VisaIOError e = true ->
        connect_ethernet_instrument RM ip_address port use_socket
        = Return (None, None, "Not Connected"))
  /\ (forall d a st,
        connect_usb_instrument RM address = Return (d, a, st)
        \/ connect_ethernet_instrument RM ip_address port use_socket
           = Return (d, a, st) ->
        (st = "Connected" /\ d <> None)
        \/ (st = "Not Connected" /\ d = None /\ a = None)).
Proof.
  intros HRM.
  unfold connect_usb_instrument, connect_ethernet_instrument,
    get_resource_manager.
  fold (ethernet_resource ip_address port use_socket).
  rewrite HRM. repeat split.
  - intros d ->. reflexivity.
  - intros e -> ->. reflexivity.
  - intros d ->. reflexivity.
  - intros e -> ->. reflexivity.
  - intros d a st [H|H]; revert H;
      match goal with |- context [rm ?n] => destruct (rm n) as [d'|e] end;
      try (destruct (is_VisaIOError e)); intros [= <- <- <-];
      [left | right | left | right]; repeat split; discriminate.
Qed.

Lemma init_connect_status (connection_method address : string)
  (self : DPO4000) :
  init_connect RM connection_method address = Return (Some self) ->
  (status_of self = "Connected" /\ device_of self <> None)
  \/ (status_of self = "Not Connected" /\ device_of self = None).
Proof.
  unfold init_connect.
  destruct (String.eqb connection_method "USB").
  - destruct (connect_usb_instrument RM address) as [[[d a] st]|e] eqn:E;
      [|discriminate].
    intros [= <-]. simpl.
    destruct (connect_usb_instrument_status address _ E) as [[d' [= -> -> ->]]|[= -> -> ->]];
      [left | right]; split; auto; discriminate.
  - destruct (String.eqb connection_method "IP"); [|discriminate].
    destruct (connect_ethernet_instrument RM address 5025 false)
      as [[[d a] st]|e] eqn:E; [|discriminate].
    intros [= <-]. simpl.
    destruct (connect_ethernet_instrument_status address _ _ _ E)
      as [[d' [= -> -> ->]]|[= -> -> ->]];
      [left | right]; split; auto; discriminate.
Qed.

(** C10: [DPO4000.__init__] raises whenever the connection attempt fails
    or [connection_method] is neither "USB" nor "IP": [AttributeError]
    from the assignment of the timeout when [self.device] is unset or is
    the [None] of a [VisaIOError] at opening, and the exception of the
    attempt itself otherwise.  So every constructed [DPO4000] has status
    "Connected" and a device that is not [None]. *)
Theorem DPO4000_init_connected (connection_method address : string) :
  (forall self tr,
     DPO4000_init RM connection_method address = Return (self, tr) ->
     status_of self = "Connected" /\ device_of self <> None)
  /\ (connection_method <> "USB" -> connection_method <> "IP" ->
      exists msg,
        DPO4000_init RM connection_method address
        = Raised (mkExn AttributeError msg))
  /\ (forall rm e,
        RM = Return rm ->
        connection_method = "USB" \/ connection_method = "IP" ->
        rm (init_resource connection_method address) = OpenRaises e ->
        exists e',
          DPO4000_init RM connection_method address = Raised e'
          /\ (is_VisaIOError e = true -> exn_cls e' = AttributeError)
          /\ (is_VisaIOError e = false -> e' = e))
  /\ (forall e,
        RM = Raised e ->
        connection_method = "USB" \/ connection_method = "IP" ->
        DPO4000_init RM connection_method address = Raised e).
Proof.
  split; [|split; [|split]].
  - intros self tr H. unfold DPO4000_init in H.
    destruct (init_connect RM connection_method address) as [[s|]|e] eqn:E;
      try discriminate.
    destruct (init_connect_status _ _ _ E) as [[Hs Hd]|[Hs Hd]].
    + destruct (device_of s) as [d|] eqn:Ed; [|discriminate].
      destruct (call d (SetTimeout 20000) []) as [[u|e] t]; [|discriminate].
      injection H as <- _. rewrite Ed. split; [assumption|discriminate].
    + rewrite Hd in H. discriminate.
  - intros Hu Hi. unfold DPO4000_init, init_connect.
    apply String.eqb_neq in Hu, Hi. rewrite Hu, Hi. eauto.
  - intros rm e HRM Hm Hopen.
    unfold DPO4000_init, init_connect, init_resource, connect_usb_instrument,
      connect_ethernet_instrument, get_resource_manager in *.
    fold (ethernet_resource address 5025 false).
    rewrite HRM.
    destruct Hm as [-> | ->]; simpl String.eqb in *; cbv iota in *;
      rewrite Hopen; destruct (is_VisaIOError e); simpl;
      eexists; repeat split; try reflexivity; discriminate.
  - intros e HRM Hm.
    unfold DPO4000_init, init_connect, connect_usb_instrument,
      connect_ethernet_instrument, get_resource_manager.
    rewrite HRM. now destruct Hm as [-> | ->].
Qed.

End Connection.

(** ** The properties on the test doubles *)

Lemma scope_reply_answers (rq : request) : exists s, scope_reply rq = Ok s.
Proof.
  unfold scope_reply.
  repeat match goal with
         | |- context [if ?b then _ else _] => destruct b; eauto
         end.
  destruct rq; eauto.
Qed.

Lemma curve_fails_twice_answers (t : trace) (rq : request) :
  rq <> ReadRaw -> exists s, curve_fails_twice_scope t rq = Ok s.
Proof.
  intros H. unfold curve_fails_twice_scope.
  destruct rq; try apply scope_reply_answers. congruence.
Qed.

Lemma curve_fails_twice_gain (t : trace) (s : string) :
  curve_fails_twice_scope t (Query "WFMPRE:YMULT?") = Ok s ->
  float_of_str s <> None.
Proof. intros [= <-]. discriminate. Qed.

Lemma curve_fails_twice_early (t : trace) :
  count_read_raw t < 2 -> exists e, curve_fails_twice_scope t ReadRaw = Raise e.
Proof.
  intros H. unfold curve_fails_twice_scope.
  apply Nat.ltb_lt in H. rewrite H. eauto.
Qed.

Lemma curve_fails_twice_late (t : trace) :
  2 <= count_read_raw t -> exists s, curve_fails_twice_scope t ReadRaw = Ok s.
Proof.
  intros H. unfold curve_fails_twice_scope.
  apply Nat.ltb_ge in H. rewrite H. apply scope_reply_answers.
Qed.

Lemma dead_scope_attempt (chan width enc : string) (tr : trace) :
  exists e, fst (acquire_attempt dead_scope chan width enc tr) = Raised e.
Proof. eexists. reflexivity. Qed.

(** A ready instrument: one query, no sleep. *)
Lemma wait_until_ready_returns_at_once_witness :
  wait_until_ready good_scope 1 []
  = (Some (Return tt), [EvCall (Query "*OPC?") (Ok "1")]).
Proof.
  apply (wait_until_ready_returns_at_once good_scope 0 [] "1" 1);
    [reflexivity | reflexivity | discriminate].
Defined.

(** A disconnected instrument: the second query, too, is followed by the
    sleep. *)
Lemma wait_until_ready_sleeps_after_failure_witness :
  exists post', [EvSleep 100] = EvSleep poll_interval_ms :: post'.
Proof.
  exact (wait_until_ready_sleeps_after_failure dead_scope 2 []
           [EvCall (Query "*OPC?") (Raise io_error); EvSleep 100]
           [EvSleep 100] (Raise io_error) eq_refl eq_refl).
Defined.


(** The commands of a first pass that succeeds. *)
Lemma acquire_waveform_commands_witness :
  exists failed : list (list request),
    List.length failed < 1
    /\ Forall (initial_segment (attempt_commands "1" "1" "RPB")) failed
    /\ commands (snd (acquire_waveform good_scope 1 "1" "1" "RPB" []))
       = List.concat failed ++ attempt_commands "1" "1" "RPB".
Proof.
  exact (acquire_waveform_commands good_scope 1 "1" "1" "RPB" [] _ _ eq_refl).
Defined.

(** A disconnected instrument keeps both loops running. *)
Lemma retry_loops_unbounded_witness :
  fst (wait_until_ready dead_scope 50 []) = None
  /\ fst (acquire_waveform dead_scope 50 "1" "1" "RPB" []) = None.
Proof.
  destruct (retry_loops_unbounded dead_scope "1" "1" "RPB") as [Hw Ha].
  split.
  - apply (Hw (fun _ => eq_refl)).
  - apply (Ha (dead_scope_attempt "1" "1" "RPB")).
Defined.

(** The block read times out twice: three passes. *)
Lemma acquire_waveform_third_attempt_witness :
  exists w new,
    acquire_waveform curve_fails_twice_scope 3 "1" "1" "RPB" []
    = (Some (Return w), [] ++ new)
    /\ commands new
       = attempt_commands "1" "1" "RPB" ++ attempt_commands "1" "1" "RPB"
         ++ attempt_commands "1" "1" "RPB".
Proof.
  apply (acquire_waveform_third_attempt curve_fails_twice_scope 3
           "1" "1" "RPB" []).
  - reflexivity.
  - apply curve_fails_twice_answers.
  - apply curve_fails_twice_gain.
  - apply curve_fails_twice_early.
  - apply curve_fails_twice_late.
  - apply le_n.
Defined.

(** An instrument that is found, and one that is not. *)
Lemma connect_instrument_status_witness :
  connect_usb_instrument rm_found "USB0::0x0699::INSTR"
  = Return (Some good_scope, Some "USB0::0x0699::INSTR", "Connected")
  /\ connect_ethernet_instrument rm_absent "10.0.142.3" 5025 false
     = Return (None, None, "Not Connected").
Proof.
  split.
  - apply (connect_instrument_status rm_found (fun _ => Opened good_scope)
             "USB0::0x0699::INSTR" "10.0.142.3" 5025 false eq_refl).
    reflexivity.
  - apply (connect_instrument_status rm_absent (fun _ => OpenRaises io_error)
             "USB0::0x0699::INSTR" "10.0.142.3" 5025 false eq_refl)
      with (e := io_error); reflexivity.
Defined.

(** No instrument behind the address: the constructor raises
    [AttributeError]. *)
Lemma DPO4000_init_connected_witness :
  exists e',
    DPO4000_init rm_absent "IP" "10.0.142.3" = Raised e'
    /\ exn_cls e' = AttributeError.
Proof.
  destruct (DPO4000_init_connected rm_absent "IP" "10.0.142.3")
    as (_ & _ & H & _).
  destruct (H (fun _ => OpenRaises io_error) io_error eq_refl
              (or_intror eq_refl) eq_refl) as [e' (He & Hc & _)].
  exists e'. split; [exact He | exact (Hc eq_refl)].
Defined.

(** ** Where the driver departs from the eight-step, always-sleeping
    reading *)


(** C2, as first stated, fails: the commands of a successful call are not
    the eight-step sequence, a [*WAI] write stands before the gain
    query. *)
Lemma acquire_waveform_writes_wai :
  fst (acquire_waveform good_scope 1 "1" "1" "RPB" [])
  = Some (Return (mkWaveform "2.0e-3" (Some "0.0") (Some "127.5")
                    (Some "4.0e-9") "#0abcdefgh"))
  /\ commands (snd (acquire_waveform good_scope 1 "1" "1" "RPB" []))
     <> eight_step_commands "1" "1" "RPB"
  /\ In (Write "*WAI")
       (commands (snd (acquire_waveform good_scope 1 "1" "1" "RPB" []))).
Proof.
  repeat split.
  - discriminate.
  - simpl. tauto.
Qed.

(** C3, as first stated, fails: after a response that reads as 0 the next
    query follows at once; the log of the call holds two queries and no
    sleep. *)
Lemma wait_until_ready_zero_no_sleep :
  wait_until_ready busy_once_scope 2 []
  = (Some (Return tt),
     [EvCall (Query "*OPC?") (Ok "0"); EvCall (Query "*OPC?") (Ok "1")])
  /\ calls_separated (snd (wait_until_ready busy_once_scope 2 [])) = false
  /\ sleeps (snd (wait_until_ready busy_once_scope 2 [])) = [].
Proof. repeat split. Qed.

(** C7, as first stated, fails: [acquire_waveform] makes three passes on
    the instrument whose block read times out twice, and sleeps between
    none of them. *)
Lemma acquire_waveform_retries_without_sleep :
  commands (snd (acquire_waveform curve_fails_twice_scope 3 "1" "1" "RPB" []))
  = attempt_commands "1" "1" "RPB" ++ attempt_commands "1" "1" "RPB"
    ++ attempt_commands "1" "1" "RPB"
  /\ sleeps (snd (acquire_waveform curve_fails_twice_scope 3 "1" "1" "RPB" []))
     = [].
Proof. repeat split. Qed.

(** ** Further properties of the oscilloscope driver *)

Lemma prints_app (t1 t2 : trace) : prints (t1 ++ t2) = prints t1 ++ prints t2.
Proof.
  induction t1 as [|[rq r|ms|msg] t1 IH]; simpl; auto. now rewrite IH.
Qed.

(** A loop whose body catches everything does not raise. *)
Lemma loop_until_never_raises {A} (body : M (option A)) :
  (forall tr, exists v, fst (body tr) = Return v) ->
  forall fuel tr e, fst (loop_until body fuel tr) <> Some (Raised e).
Proof.
  intros Hb fuel. induction fuel as [|fuel IH]; intros tr e; simpl.
  - discriminate.
  - destruct (Hb tr) as [v Hv].
    destruct (body tr) as [[[a|]|e'] tr1]; simpl in *; try discriminate.
    apply IH.
Qed.

(** Passes of a loop add up. *)
Lemma loop_until_split {A} (body : M (option A)) (k m : nat) :
  forall tr,
    fst (loop_until body k tr) = None ->
    loop_until body (k + m) tr = loop_until body m (snd (loop_until body k tr)).
Proof.
  induction k as [|k IH]; intros tr H; simpl in *; auto.
  destruct (body tr) as [[[a|]|e] tr1]; simpl in *; try discriminate.
  now apply IH.
Qed.

Section Scope.

Context {B : PyBuiltins}.
Variable dev : device.

(** A wait that is still looping after [k] passes has sent [k] queries. *)
Lemma wait_until_ready_queries (k : nat) :
  forall tr,
    fst (wait_until_ready dev k tr) = None ->
    List.length (commands (added tr (snd (wait_until_ready dev k tr)))) = k.
Proof.
  unfold wait_until_ready.
  induction k as [|k IH]; intros tr H; simpl in *.
  - now rewrite added_refl.
  - rewrite wait_until_ready_body_spec in *.
    destruct (opc_not_ready (dev tr (Query "*OPC?"))); [|discriminate].
    match goal with
    | |- context [loop_until _ _ (tr ++ ?b)] => set (blk := b) in *
    end.
    specialize (IH (tr ++ blk) H).
    destruct (loop_until_appends (fun _ => True) (wait_until_ready_body dev))
      with (fuel := k) (tr := tr ++ blk) as [new [Hn _]]; auto.
    { intros t. rewrite wait_until_ready_body_spec. simpl. eauto. }
    rewrite Hn in *. rewrite added_app in IH.
    rewrite <- app_assoc, added_app, commands_app.
    subst blk. destruct (opc_failed _); simpl; now rewrite IH.
Qed.

(** X1: [wait_until_ready] raises for no device, whatever its queries do,
    and all it ever sends is the [*OPC?] query. *)
Theorem wait_until_ready_never_raises (fuel : nat) (tr : trace) :
  (forall e, fst (wait_until_ready dev fuel tr) <> Some (Raised e))
  /\ Forall (fun rq => rq = Query "*OPC?")
       (commands (added tr (snd (wait_until_ready dev fuel tr)))).
Proof.
  split.
  - intros e. unfold wait_until_ready. apply loop_until_never_raises.
    intros t. rewrite wait_until_ready_body_spec. simpl. eauto.
  - destruct (wait_until_ready_log dev fuel tr) as [new (Hn & _ & _ & Hc)].
    now rewrite Hn, added_app.
Qed.

(** X2: [wait_until_ready] returns at the first pass whose query reads as
    a nonzero integer: when it is still looping after [k] passes and the
    device then answers such a response, it returns with that query as
    its last event, however many passes it is allowed; the [k] passes
    before have sent one query each, so it returns after [k + 1]
    queries. *)
Theorem wait_until_ready_first_ready_pass (k extra : nat) (tr : trace) :
  fst (wait_until_ready dev k tr) = None ->
  opc_not_ready (dev (snd (wait_until_ready dev k tr)) (Query "*OPC?")) = false ->
  wait_until_ready dev (k + S extra) tr
  = (Some (Return tt),
     snd (wait_until_ready dev k tr)
     ++ [EvCall (Query "*OPC?")
           (dev (snd (wait_until_ready dev k tr)) (Query "*OPC?"))])
  /\ List.length (commands (added tr (snd (wait_until_ready dev k tr)))) = k.
Proof.
  intros Hk Hready.
  split; [|now apply wait_until_ready_queries].
  unfold wait_until_ready in *.
  rewrite loop_until_split by assumption.
  cbn [loop_until]. rewrite wait_until_ready_body_spec, Hready.
  assert (Hf : opc_failed
                 (dev (snd (loop_until (wait_until_ready_body dev) k tr))
                      (Query "*OPC?")) = false).
  { revert Hready. unfold opc_not_ready, opc_failed.
    destruct (dev _ _) as [s|e]; [|discriminate].
    now destruct (int_of_str s). }
  now rewrite Hf.
Qed.

(** X3: [acquire_waveform] raises for no device: its bare [except] turns
    every exception of a pass into another pass. *)
Theorem acquire_waveform_never_raises (fuel : nat) (chan width enc : string)
  (tr : trace) (e : exn) :
  fst (acquire_waveform dev fuel chan width enc tr) <> Some (Raised e).
Proof.
  unfold acquire_waveform. apply loop_until_never_raises.
  intros t. rewrite acquire_waveform_body_spec.
  destruct (fst (acquire_attempt dev chan width enc t)); simpl; eauto.
Qed.

End Scope.

Section AcquiredValues.

Context {B : PyBuiltins}.
Variable dev : device.

Ltac unfold_pass :=
  unfold acquire_attempt, data_source, data_width, data_encoding,
    wfmpre_ymult, wfmpre_yzero, wfmpre_yoff, wfmpre_xincr, wai,
    py_float_of_value, py_float, try_except, bind, call, print, ret, raise.

Ltac next_reply :=
  match goal with
  | |- context [dev ?t ?rq] => destruct (dev t rq) eqn:?; simpl
  | |- context [float_of_str ?s] => destruct (float_of_str s) eqn:?; simpl
  end.

(** A pass that reaches [good = 1] yields what it has read itself. *)
Lemma acquire_attempt_yields (chan width enc : string) (tr : trace) :
  forall w,
    fst (acquire_attempt dev chan width enc tr) = Return w ->
    exists last,
      snd (acquire_attempt dev chan width enc tr) = tr ++ last
      /\ pass_yields chan width enc last w.
Proof.
  unfold_pass.
  repeat next_reply; intros w Hw; try discriminate;
    injection Hw as <-;
    (eexists; split; [rewrite <- ?app_assoc; simpl; reflexivity|]);
    (split; [reflexivity|]);
    do 9 eexists; simpl; repeat split; eauto.
Qed.

(** X4: the tuple [acquire_waveform] returns is read in one and the same
    pass, the last one: the log of the call ends with a complete pass
    whose replies are the gain, zero, offset, increment and block that
    are returned; nothing read in an abandoned pass is returned. *)
Theorem acquire_waveform_values_of_last_pass (fuel : nat)
  (chan width enc : string) (tr tr' : trace) (w : waveform) :
  acquire_waveform dev fuel chan width enc tr = (Some (Return w), tr') ->
  exists earlier last,
    added tr tr' = earlier ++ last /\ pass_yields chan width enc last w.
Proof.
  revert tr. unfold acquire_waveform.
  induction fuel as [|fuel IH]; intros tr H; simpl in H.
  - discriminate.
  - rewrite acquire_waveform_body_spec in H.
    destruct (fst (acquire_attempt dev chan width enc tr)) as [w0|e] eqn:E.
    + injection H as <- <-.
      destruct (acquire_attempt_yields chan width enc tr w0 E)
        as [last [Hl Hy]].
      exists [], last. rewrite Hl, added_app. auto.
    + destruct (acquire_attempt_log dev chan width enc tr) as [new (Hn & _)].
      rewrite Hn in H.
      destruct (IH (tr ++ new) H) as [earlier [last [Hadd Hy]]].
      destruct (loop_until_appends (fun _ => True)
                  (acquire_waveform_body dev chan width enc))
        with (fuel := fuel) (tr := tr ++ new) as [new' [Hn' _]]; auto.
      { apply acquire_waveform_body_appends. intros t.
        destruct (acquire_attempt_log dev chan width enc t) as [n (Ht & _)].
        eauto. }
      rewrite H in Hn'. simpl in Hn'. subst tr'.
      rewrite added_app in Hadd.
      exists (new ++ earlier), last.
      rewrite <- !app_assoc, added_app, Hadd. auto.
Qed.

(** The log of a preamble query without [*WAI]: one query, and one line
    when nothing was read. *)
Lemma preamble_query_report (command name : string) (tr : trace) :
  let m := try_except
             (r <- call dev (Query command) ;; x <- py_float r ;; ret (Some x))
             (fun e => print (String.append name (exn_msg e)) ;; ret None) in
  commands (added tr (snd (m tr))) = [Query command]
  /\ match fst (m tr) with
     | Return (Some _) => prints (added tr (snd (m tr))) = []
     | Return None =>
         exists msg, prints (added tr (snd (m tr))) = [String.append name msg]
     | Raised _ => False
     end.
Proof.
  cbv zeta. rewrite preamble_query_spec. cbn [fst snd].
  rewrite added_app. unfold parsed_reply.
  destruct (dev tr (Query command)) as [s|e]; simpl.
  - destruct (float_of_str s); simpl; eauto.
  - eauto.
Qed.

(** X5: [wfmpre_ymult] sends its query only behind a [*WAI] write that
    succeeded: when that write raises, the write is its only device call
    and the result is [None]; otherwise its device calls are the write
    and the [WFMPRE:YMULT?] query, in this order. *)
Theorem wfmpre_ymult_waits_first (tr : trace) :
  match dev tr (Write "*WAI") with
  | Raise _ =>
      commands (added tr (snd (wfmpre_ymult dev tr))) = [Write "*WAI"]
      /\ fst (wfmpre_ymult dev tr) = Return None
  | Ok _ =>
      commands (added tr (snd (wfmpre_ymult dev tr)))
      = [Write "*WAI"; Query "WFMPRE:YMULT?"]
  end.
Proof.
  unfold wfmpre_ymult, wai, try_except, bind, call, py_float, print, ret, raise.
  destruct (dev tr (Write "*WAI")) as [s|e]; simpl.
  - destruct (dev _ (Query "WFMPRE:YMULT?")) as [s'|e]; simpl;
      [destruct (float_of_str s'); simpl|];
      rewrite <- ?app_assoc, added_app; reflexivity.
  - rewrite <- ?app_assoc, added_app. auto.
Qed.

(** X6: each of [wfmpre_yzero], [wfmpre_yoff] and [wfmpre_xincr] makes
    exactly one device call, its query, and reports a failure on the
    console and nowhere else: it prints one line, which starts with
    "Error querying" and the name of the quantity, exactly when it
    returns [None], and prints nothing when it returns a value. *)
Theorem wfmpre_prints_on_failure (tr : trace) :
  (commands (added tr (snd (wfmpre_yzero dev tr))) = [Query "WFMPRE:YZERO?"]
   /\ match fst (wfmpre_yzero dev tr) with
      | Return (Some _) => prints (added tr (snd (wfmpre_yzero dev tr))) = []
      | Return None =>
          exists msg,
            prints (added tr (snd (wfmpre_yzero dev tr)))
            = [String.append "Error querying YZERO: " msg]
      | Raised _ => False
      end)
  /\ (commands (added tr (snd (wfmpre_yoff dev tr))) = [Query "WFMPRE:YOFF?"]
      /\ match fst (wfmpre_yoff dev tr) with
         | Return (Some _) => prints (added tr (snd (wfmpre_yoff dev tr))) = []
         | Return None =>
             exists msg,
               prints (added tr (snd (wfmpre_yoff dev tr)))
               = [String.append "Error querying YOFF: " msg]
         | Raised _ => False
         end)
  /\ (commands (added tr (snd (wfmpre_xincr dev tr))) = [Query "WFMPRE:XINCR?"]
      /\ match fst (wfmpre_xincr dev tr) with
         | Return (Some _) => prints (added tr (snd (wfmpre_xincr dev tr))) = []
         | Return None =>
             exists msg,
               prints (added tr (snd (wfmpre_xincr dev tr)))
               = [String.append "Error querying XINCR: " msg]
         | Raised _ => False
         end).
Proof.
  split; [|split].
  - exact (preamble_query_report "WFMPRE:YZERO?" "Error querying YZERO: " tr).
  - exact (preamble_query_report "WFMPRE:YOFF?" "Error querying YOFF: " tr).
  - exact (preamble_query_report "WFMPRE:XINCR?" "Error querying XINCR: " tr).
Qed.

End AcquiredValues.

Section ScopeCommands.

Variable dev : device.

(** X7: [config_acq] writes ACQUIRE:STOPAFTER, ACQUIRE:STATE and *WAI in
    this order and stops at the first write that raises: the exception
    that leaves it is the one of its last device call, every call before
    succeeded, and no later command is sent.  It returns only when all
    three writes succeeded, and it neither sleeps nor prints. *)
Theorem config_acq_stops_at_first_failure (stopafter_val acq_state : string)
  (tr : trace) :
  exists new,
    snd (config_acq dev stopafter_val acq_state tr) = tr ++ new
    /\ initial_segment
         [ Write (fmt ["ACQUIRE:STOPAFTER "; stopafter_val]);
           Write (fmt ["ACQUIRE:STATE "; acq_state]);
           Write "*WAI" ]
         (commands new)
    /\ sleeps new = [] /\ prints new = []
    /\ match fst (config_acq dev stopafter_val acq_state tr) with
       | Return _ =>
           commands new
           = [ Write (fmt ["ACQUIRE:STOPAFTER "; stopafter_val]);
               Write (fmt ["ACQUIRE:STATE "; acq_state]);
               Write "*WAI" ]
           /\ forallb is_ok (replies new) = true
       | Raised e =>
           exists pre rq,
             new = pre ++ [EvCall rq (Raise e)]
             /\ forallb is_ok (replies pre) = true
       end.
Proof.
  unfold config_acq, acquire_stopafter, acquire_state, wai, bind, call, ret.
  repeat match goal with
         | |- context [dev ?t ?rq] => destruct (dev t rq) eqn:?; cbn [fst snd]
         end.
  all: eexists; split; [rewrite <- ?app_assoc; simpl; reflexivity|].
  all: unfold initial_segment; simpl; repeat split; eauto.
  - exists [EvCall (Write (fmt ["ACQUIRE:STOPAFTER "; stopafter_val])) (Ok payload);
            EvCall (Write (fmt ["ACQUIRE:STATE "; acq_state])) (Ok payload0)].
    eexists. split; reflexivity.
  - exists [EvCall (Write (fmt ["ACQUIRE:STOPAFTER "; stopafter_val])) (Ok payload)].
    eexists. split; reflexivity.
  - exists []. eexists. split; reflexivity.
Qed.

(** X8: [measure_amplitude] reads nothing from the instrument: its device
    calls are the two writes MEASUrement:IMMed:SOUrce{chan} and
    MEASUrement:IMMed:TYPe{meastype}, the second only after the first
    succeeded, and never a query or a block read.  What it returns is what
    the second [write] returned. *)
Theorem measure_amplitude_only_writes (chan meastype : string) (tr : trace) :
  exists new,
    snd (measure_amplitude dev chan meastype tr) = tr ++ new
    /\ initial_segment
         [ Write (fmt ["MEASUrement:IMMed:SOUrce"; chan]);
           Write (fmt ["MEASUrement:IMMed:TYPe"; meastype]) ]
         (commands new)
    /\ match fst (measure_amplitude dev chan meastype tr) with
       | Return v => exists a, replies new = [Ok a; Ok v]
       | Raised e =>
           exists pre, replies new = pre ++ [Raise e]
                       /\ forallb is_ok pre = true
       end.
Proof.
  unfold measure_amplitude, bind, call, ret.
  repeat match goal with
         | |- context [dev ?t ?rq] => destruct (dev t rq) eqn:?; cbn [fst snd]
         end.
  all: eexists; split; [rewrite <- ?app_assoc; simpl; reflexivity|].
  all: unfold initial_segment; simpl; repeat split; eauto.
  - exists [Ok payload]. auto.
  - exists []. auto.
Qed.

End ScopeCommands.

(** The counter of the standalone run is doubled, and it starts at 0. *)
Lemma main_loop_at_zero (RM : result resource_manager) (fuel : nat) :
  forall logs,
    fst (main_loop RM fuel 0 logs) <> Some (Return tt)
    /\ fst (snd (main_loop RM fuel 0 logs)) = 0%Z
    /\ (forall tr, main_pass RM = Return tr ->
          main_loop RM fuel 0 logs = (None, (0%Z, logs ++ repeat tr fuel))).
Proof.
  induction fuel as [|fuel IH]; intros logs; simpl.
  - repeat split; try discriminate. intros tr _. now rewrite app_nil_r.
  - destruct (main_pass RM) as [tr|e] eqn:E.
    + destruct (IH (logs ++ [tr])) as (H1 & H2 & H3).
      repeat split; auto.
      intros tr' [= <-]. rewrite (H3 tr eq_refl), <- app_assoc. reflexivity.
    + simpl. repeat split; discriminate.
Qed.

(** X9: the standalone run of [Tek_DPO4000.py] never leaves its loop by
    the test [i < 10]: the counter starts at 0 and [i += i] keeps it at 0.
    The run ends only by an exception; as long as every pass completes it
    builds a new scope and runs the test again, pass after pass. *)
Theorem DPO4000_main_never_finishes (RM : result resource_manager)
  (fuel : nat) :
  fst (DPO4000_main RM fuel) <> Some (Return tt)
  /\ fst (snd (DPO4000_main RM fuel)) = 0%Z
  /\ (forall tr, main_pass RM = Return tr ->
        DPO4000_main RM fuel = (None, (0%Z, repeat tr fuel))).
Proof.
  unfold DPO4000_main.
  destruct (main_loop_at_zero RM fuel []) as (H1 & H2 & H3).
  repeat split; auto.
Qed.

Lemma DPO4000_main_never_finishes_witness :
  fst (DPO4000_main rm_found 7) = None
  /\ List.length (snd (snd (DPO4000_main rm_found 7))) = 7.
Proof.
  destruct (DPO4000_main_never_finishes rm_found 7) as (_ & _ & H).
  rewrite (H _ eq_refl). split; reflexivity.
Defined.

(** ** Further properties of the connection helpers and of the listing *)

(** X10: [connect_usb_instrument] and [connect_ethernet_instrument] catch
    [VisaIOError] only: any other exception of [open_resource], and any
    exception of [pyvisa.ResourceManager()], leaves them unchanged, and
    no status is returned. *)
Theorem connect_instrument_propagates (RM : result resource_manager)
  (address ip_address : string) (port : Z) (use_socket : bool) :
  (forall e, RM = Raised e ->
     connect_usb_instrument RM address = Raised e
     /\ connect_ethernet_instrument RM ip_address port use_socket = Raised e)
  /\ (forall rm e, RM = Return rm -> is_VisaIOError e = false ->
        (rm address = OpenRaises e ->
         connect_usb_instrument RM address = Raised e)
        /\ (rm (ethernet_resource ip_address port use_socket) = OpenRaises e ->
            connect_ethernet_instrument RM ip_address port use_socket
            = Raised e)).
Proof.
  unfold connect_usb_instrument, connect_ethernet_instrument,
    get_resource_manager.
  fold (ethernet_resource ip_address port use_socket).
  split.
  - intros e ->. auto.
  - intros rm e -> He. split; intros ->; now rewrite He.
Qed.

Lemma connect_instrument_propagates_witness :
  connect_usb_instrument (Return rm_bench) "GPIB0::x" = Raised value_error.
Proof.
  destruct (connect_instrument_propagates (Return rm_bench) "GPIB0::x"
              "10.0.142.3" 5025 false) as [_ H].
  destruct (H rm_bench value_error eq_refl eq_refl) as [Husb _].
  exact (Husb eq_refl).
Defined.

Lemma split_comma_length (s : string) :
  List.length (split_comma s) = S (count_commas s).
Proof.
  induction s as [|c r IH]; simpl; auto.
  destruct (Ascii.eqb c ","); simpl.
  - now rewrite IH.
  - destruct (split_comma r); simpl in *; congruence.
Qed.

Lemma header_is_header (name : string) : is_header (fmt [" - "; name]) = true.
Proof. unfold is_header, fmt. cbn. now destruct name. Qed.

(** One instrument of the listing, when nothing but [VisaIOError] is
    raised: its name, the lines under it, and its one query if it opens. *)
Lemma list_one_spec (rm : resource_manager) (name : string) (tr : trace) :
  visa_errors_only rm name ->
  exists new,
    list_one rm name tr = (Return tt, tr ++ new)
    /\ filter is_header (prints new) = [fmt [" - "; name]]
    /\ commands new = (if opens rm name then [Query "*IDN?"] else [])
    /\ prints new
       = fmt [" - "; name]
         :: match rm name with
            | Opened d =>
                match d [] (Query "*IDN?") with
                | Ok r => idn_lines r
                | Raise e =>
                    [fmt ["   Error communicating with "; name; ": "; exn_msg e]]
                end
            | OpenRaises e =>
                [fmt ["   Error communicating with "; name; ": "; exn_msg e]]
            end.
Proof.
  unfold visa_errors_only, list_one, try_except_visa, bind, print,
    open_resource, call_fresh, ret, raise, opens, idn_lines.
  destruct (rm name) as [d|e].
  - destruct (d [] (Query "*IDN?")) as [r|e]; intros Hv.
    + rewrite split_comma_length.
      change (S (count_commas (strip r)) =? 4)%nat
        with (count_commas (strip r) =? 3)%nat.
      destruct (count_commas (strip r) =? 3)%nat;
        (eexists; split; [rewrite <- ?app_assoc; simpl; reflexivity|]);
        simpl; rewrite header_is_header; auto.
    + rewrite Hv.
      eexists; split; [rewrite <- ?app_assoc; simpl; reflexivity|].
      simpl; rewrite header_is_header; auto.
  - intros Hv. rewrite Hv.
    eexists; split; [rewrite <- ?app_assoc; simpl; reflexivity|].
    simpl; rewrite header_is_header; auto.
Qed.

Lemma filter_app_headers (a b : list string) :
  filter is_header (a ++ b) = filter is_header a ++ filter is_header b.
Proof. apply filter_app. Qed.

Lemma for_each_list_one (rm : resource_manager) (names : list string) :
  Forall (visa_errors_only rm) names ->
  forall tr, exists new,
    for_each (list_one rm) names tr = (Return tt, tr ++ new)
    /\ filter is_header (prints new) = map (fun n => fmt [" - "; n]) names
    /\ commands new
       = map (fun _ => Query "*IDN?") (filter (opens rm) names).
Proof.
  induction 1 as [|name names Hname Hnames IH]; intros tr.
  - exists []. simpl. unfold ret. now rewrite app_nil_r.
  - destruct (list_one_spec rm name tr Hname) as [n1 (H1 & Hh1 & Hc1 & _)].
    destruct (IH (tr ++ n1)) as [n2 (H2 & Hh2 & Hc2)].
    exists (n1 ++ n2).
    cbn [for_each]. unfold bind at 1. rewrite H1, H2.
    rewrite app_assoc, prints_app, filter_app_headers, commands_app,
      Hh1, Hh2, Hc1, Hc2.
    repeat split. cbn [filter map]. now destruct (opens rm name).
Qed.

(** X11: [list_instruments] goes through the whole list when opening and
    identifying raise nothing but [VisaIOError]: it returns, it prints a
    line with the name of every listed resource, in the order of the list,
    and it sends one [*IDN?] query for each resource that opens and none
    for the others.  Its first line is "Available Instruments:", or "No
    instruments found." for an empty list. *)
Theorem list_instruments_lists_all (rm : resource_manager)
  (names : list string) (tr : trace) :
  Forall (visa_errors_only rm) names ->
  exists new,
    list_instruments (Return rm) (Return names) tr = (Return tt, tr ++ new)
    /\ filter is_header (prints new) = map (fun n => fmt [" - "; n]) names
    /\ commands new
       = map (fun _ => Query "*IDN?") (filter (opens rm) names)
    /\ hd_error (prints new)
       = Some match names with
              | [] => "No instruments found."
              | _ :: _ => "Available Instruments:"
              end.
Proof.
  intros Hall.
  unfold list_instruments, get_resource_manager, lift, bind.
  destruct names as [|name names].
  - unfold print. eexists. split; [reflexivity|]. simpl. auto.
  - unfold print at 1.
    destruct (for_each_list_one rm (name :: names) Hall
                (tr ++ [EvPrint "Available Instruments:"]))
      as [new (Hn & Hh & Hc)].
    rewrite Hn. exists (EvPrint "Available Instruments:" :: new).
    split; [now rewrite <- app_assoc|].
    cbn [prints commands hd_error]. repeat split; auto.
Qed.

Lemma rm_bench_visa_errors_only :
  Forall (visa_errors_only rm_bench) ["USB0::SCOPE"; "USB0::OFF"].
Proof. repeat constructor. Qed.

Lemma list_instruments_lists_all_witness :
  exists new,
    list_instruments (Return rm_bench) (Return ["USB0::SCOPE"; "USB0::OFF"]) []
    = (Return tt, [] ++ new)
    /\ filter is_header (prints new)
       = map (fun n => fmt [" - "; n]) ["USB0::SCOPE"; "USB0::OFF"]
    /\ commands new
       = map (fun _ => Query "*IDN?")
           (filter (opens rm_bench) ["USB0::SCOPE"; "USB0::OFF"])
    /\ hd_error (prints new) = Some "Available Instruments:".
Proof.
  exact (list_instruments_lists_all rm_bench ["USB0::SCOPE"; "USB0::OFF"] []
           rm_bench_visa_errors_only).
Defined.

(** X12: under the name of an instrument that opens and answers [*IDN?],
    [list_instruments] prints the four lines Manufacturer, Model, Serial
    Number and Firmware Version exactly when the response, stripped of
    surrounding blanks, holds exactly three commas; for any other number
    of commas it prints "Unrecognized IDN format." alone. *)
Theorem list_one_identification (rm : resource_manager) (name : string)
  (d : device) (r : string) (tr : trace) :
  rm name = Opened d ->
  d [] (Query "*IDN?") = Ok r ->
  prints (added tr (snd (list_one rm name tr)))
  = fmt [" - "; name] :: idn_lines r.
Proof.
  intros Hopen Hidn.
  destruct (list_one_spec rm name tr) as [new (Hn & _ & _ & Hp)].
  { unfold visa_errors_only. now rewrite Hopen, Hidn. }
  rewrite Hn. cbn [snd]. rewrite added_app, Hp, Hopen, Hidn. reflexivity.
Qed.

Lemma list_one_identification_witness :
  prints (snd (list_one rm_bench "USB0::SCOPE" []))
  = [ " - USB0::SCOPE"; "   Manufacturer: TEKTRONIX"; "   Model: DPO4034";
      "   Serial Number: C010101"; "   Firmware Version: CF:91.1CT" ].
Proof.
  exact (list_one_identification rm_bench "USB0::SCOPE" tek_scope
           "TEKTRONIX,DPO4034,C010101,CF:91.1CT" [] eq_refl eq_refl).
Defined.

(** X13: an exception other than [VisaIOError] ends the listing: when
    opening a resource raises one, [list_instruments] raises it, the name
    of that resource is the last one printed, and the resources after it
    are neither named nor opened. *)
Theorem list_instruments_stops_on_other_error (rm : resource_manager)
  (before after : list string) (bad : string) (e : exn) (tr : trace) :
  Forall (visa_errors_only rm) before ->
  rm bad = OpenRaises e ->
  is_VisaIOError e = false ->
  exists new,
    list_instruments (Return rm) (Return (before ++ bad :: after)) tr
    = (Raised e, tr ++ new)
    /\ filter is_header (prints new)
       = map (fun n => fmt [" - "; n]) (before ++ [bad])
    /\ commands new
       = map (fun _ => Query "*IDN?") (filter (opens rm) before).
Proof.
  intros Hbefore Hbad He.
  assert (Hloop : forall t, exists new,
             for_each (list_one rm) (before ++ bad :: after) t
             = (Raised e, t ++ new)
             /\ filter is_header (prints new)
                = map (fun n => fmt [" - "; n]) (before ++ [bad])
             /\ commands new
                = map (fun _ => Query "*IDN?") (filter (opens rm) before)).
  { induction Hbefore as [|name names Hname Hnames IH]; intros t.
    - cbn [app for_each]. unfold bind at 1.
      unfold list_one, try_except_visa, bind, print, open_resource, raise.
      rewrite Hbad, He.
      eexists. split; [reflexivity|]. simpl. rewrite header_is_header. auto.
    - destruct (list_one_spec rm name t Hname) as [n1 (H1 & Hh1 & Hc1 & _)].
      destruct (IH (t ++ n1)) as [n2 (H2 & Hh2 & Hc2)].
      exists (n1 ++ n2).
      cbn [app for_each]. unfold bind at 1. rewrite H1, H2.
      rewrite app_assoc, prints_app, filter_app_headers, commands_app,
        Hh1, Hh2, Hc1, Hc2.
      repeat split. cbn [filter map]. now destruct (opens rm name). }
  unfold list_instruments, get_resource_manager, lift, bind.
  destruct (Hloop (tr ++ [EvPrint "Available Instruments:"]))
    as [new (Hn & Hh & Hc)].
  exists (EvPrint "Available Instruments:" :: new).
  split; [|cbn [prints commands]; auto].
  destruct before as [|b0 before']; cbn [app] in *; unfold print at 1;
    rewrite Hn; now rewrite <- app_assoc.
Qed.

Lemma list_instruments_stops_on_other_error_witness :
  exists new,
    list_instruments (Return rm_bench)
      (Return (["USB0::SCOPE"] ++ "GPIB0::x" :: ["USB0::OFF"])) []
    = (Raised value_error, [] ++ new)
    /\ filter is_header (prints new)
       = map (fun n => fmt [" - "; n]) (["USB0::SCOPE"] ++ ["GPIB0::x"])
    /\ commands new
       = map (fun _ => Query "*IDN?") (filter (opens rm_bench) ["USB0::SCOPE"]).
Proof.
  apply (list_instruments_stops_on_other_error rm_bench ["USB0::SCOPE"]
           ["USB0::OFF"] "GPIB0::x" value_error []).
  - repeat constructor.
  - reflexivity.
  - reflexivity.
Defined.

(** ** Properties of the other drivers *)

Section OtherDrivers.

Context {B : PyBuiltins}.

(** A measurement of the Keithley 2100: the shape shared by [meas_dcv] and
    [meas_res]. *)
Lemma measurement_spec (self : object) (command name : string) (tr : trace) :
  let m := try_except
             (d <- device_method self "query" ;;
              r <- call d (Query command) ;;
              x <- py_float r ;;
              ret (Some x))
             (fun e => print (fmt [name; exn_msg e]) ;; ret None) in
  match connected_device self with
  | None =>
      fst (m tr) = Return None
      /\ commands (added tr (snd (m tr))) = []
      /\ List.length (prints (added tr (snd (m tr)))) = 1
  | Some d =>
      fst (m tr) = Return (parsed_reply (d tr (Query command)))
      /\ commands (added tr (snd (m tr))) = [Query command]
      /\ List.length (prints (added tr (snd (m tr))))
         = match parsed_reply (d tr (Query command)) with
           | Some _ => 0
           | None => 1
           end
  end.
Proof.
  cbv zeta.
  unfold connected_device, device_method, try_except, bind, call, py_float,
    print, ret, raise, parsed_reply.
  destruct self as [[[d|] a st cw]|]; cbn [attr_device].
  - destruct (d tr (Query command)) as [s|e]; cbn [fst snd].
    + destruct (float_of_str s); cbn [fst snd];
        rewrite <- ?app_assoc, added_app; auto.
    + rewrite <- ?app_assoc, added_app; auto.
  - cbn [fst snd]. rewrite added_app. auto.
  - cbn [fst snd]. rewrite added_app. auto.
Qed.

(** X14: [meas_dcv] and [meas_res] of [Keithley2100] raise for no object
    and no device.  On an object without a device (not connected, or built
    with a method other than "USB") they return [None] without any device
    call and print one line; on a connected one they send their one
    MEASURE query, return the response read as a float, or [None] with
    one printed line when the query raises or the response is not
    numeric. *)
Theorem Keithley2100_meas_never_raises (self : object)
  (meas_range resolution : string) (tr : trace) :
  match connected_device self with
  | None =>
      (fst (Keithley2100_meas_dcv self meas_range resolution tr) = Return None
       /\ commands (added tr
            (snd (Keithley2100_meas_dcv self meas_range resolution tr))) = []
       /\ List.length (prints (added tr
            (snd (Keithley2100_meas_dcv self meas_range resolution tr)))) = 1)
      /\ (fst (Keithley2100_meas_res self meas_range resolution tr) = Return None
          /\ commands (added tr
               (snd (Keithley2100_meas_res self meas_range resolution tr))) = []
          /\ List.length (prints (added tr
               (snd (Keithley2100_meas_res self meas_range resolution tr)))) = 1)
  | Some d =>
      (fst (Keithley2100_meas_dcv self meas_range resolution tr)
       = Return (parsed_reply
           (d tr (Query (fmt ["MEASURE:VOLTAGE:DC? "; meas_range; ",";
                              resolution]))))
       /\ commands (added tr
            (snd (Keithley2100_meas_dcv self meas_range resolution tr)))
          = [Query (fmt ["MEASURE:VOLTAGE:DC? "; meas_range; ","; resolution])]
       /\ List.length (prints (added tr
            (snd (Keithley2100_meas_dcv self meas_range resolution tr))))
          = match parsed_reply
                    (d tr (Query (fmt ["MEASURE:VOLTAGE:DC? "; meas_range; ",";
                                       resolution]))) with
            | Some _ => 0
            | None => 1
            end)
      /\ (fst (Keithley2100_meas_res self meas_range resolution tr)
          = Return (parsed_reply
              (d tr (Query (fmt ["MEASURE:RESISTANCE? "; meas_range; ",";
                                 resolution]))))
          /\ commands (added tr
               (snd (Keithley2100_meas_res self meas_range resolution tr)))
             = [Query (fmt ["MEASURE:RESISTANCE? "; meas_range; ",";
                            resolution])]
          /\ List.length (prints (added tr
               (snd (Keithley2100_meas_res self meas_range resolution tr))))
             = match parsed_reply
                       (d tr (Query (fmt ["MEASURE:RESISTANCE? "; meas_range;
                                          ","; resolution]))) with
               | Some _ => 0
               | None => 1
               end)
  end.
Proof.
  pose proof (measurement_spec self
                (fmt ["MEASURE:VOLTAGE:DC? "; meas_range; ","; resolution])
                "Error querying MEASURE:VOLTAGE:DC " tr) as Hv.
  pose proof (measurement_spec self
                (fmt ["MEASURE:RESISTANCE? "; meas_range; ","; resolution])
                "Error querying MEASURE:RESISTANCE? " tr) as Hr.
  cbv zeta in Hv, Hr.
  unfold Keithley2100_meas_dcv, Keithley2100_meas_res.
  destruct (connected_device self); split; assumption.
Qed.

(** [factory_reset], case by case. *)
Lemma factory_reset_spec (self : object) (tr : trace) :
  match connected_device self with
  | None =>
      exists e, factory_reset self tr = (Raised e, tr)
                /\ exn_cls e = AttributeError
  | Some d =>
      match d tr (Write "*RST") with
      | Ok s =>
          factory_reset self tr
          = (Return tt, tr ++ [EvCall (Write "*RST") (Ok s); EvSleep 5000])
      | Raise e =>
          factory_reset self tr
          = (Raised e, tr ++ [EvCall (Write "*RST") (Raise e)])
      end
  end.
Proof.
  unfold connected_device, factory_reset, device_method, bind, call, sleep,
    ret, raise.
  destruct self as [[[d|] a st cw]|]; cbn [attr_device]; eauto.
  destruct (d tr (Write "*RST")) as [s|e]; auto.
  now rewrite <- app_assoc.
Qed.

(** X15: a [Keithley2100] can be built without a connection, unlike a
    [DPO4000].  When opening raises [VisaIOError], [__init__] returns an
    object with status "Not Connected" and device [None]; on that object
    [factory_reset] raises [AttributeError] before any effect, while
    [meas_dcv] returns [None] without a device call.  With a method other
    than "USB", [__init__] assigns no attribute and opens nothing. *)
Theorem Keithley2100_not_connected (RM : result resource_manager)
  (connection_method address : string) :
  (forall rm e,
     RM = Return rm -> connection_method = "USB" ->
     rm address = OpenRaises e -> is_VisaIOError e = true ->
     exists self,
       Keithley2100_init RM connection_method address = Return (Some self)
       /\ attr_status self = "Not Connected"
       /\ attr_device self = None
       /\ attr_connected_with self = None
       /\ (forall tr, exists e',
             factory_reset (Some self) tr = (Raised e', tr)
             /\ exn_cls e' = AttributeError)
       /\ (forall meas_range resolution tr,
             fst (Keithley2100_meas_dcv (Some self) meas_range resolution tr)
             = Return None
             /\ commands (added tr
                  (snd (Keithley2100_meas_dcv (Some self) meas_range
                          resolution tr))) = []))
  /\ (connection_method <> "USB" ->
      Keithley2100_init RM connection_method address = Return None).
Proof.
  split.
  - intros rm e -> -> Hopen He.
    unfold Keithley2100_init, connect_usb_instrument, get_resource_manager.
    cbn [String.eqb Ascii.eqb Bool.eqb]. rewrite Hopen, He.
    eexists. split; [reflexivity|]. cbn [attr_status attr_device attr_connected_with].
    split; [reflexivity|]. split; [reflexivity|]. split; [reflexivity|].
    split.
    + intros tr.
      exact (factory_reset_spec
               (Some (mkAttributes None None "Not Connected" None)) tr).
    + intros meas_range resolution tr.
      pose proof (measurement_spec
                    (Some (mkAttributes None None "Not Connected" None))
                    (fmt ["MEASURE:VOLTAGE:DC? "; meas_range; ","; resolution])
                    "Error querying MEASURE:VOLTAGE:DC " tr) as H.
      split; apply H.
  - intros Hm. unfold Keithley2100_init.
    apply String.eqb_neq in Hm. now rewrite Hm.
Qed.

End OtherDrivers.

Section Keysight.

Context {B : PyBuiltins}.
Variable RM : result resource_manager.
Variable str_of_float : pyfloat -> string.

Lemma Keysight34461A_connect_status (connection_method address : string)
  (self : attributes) :
  Keysight34461A_connect RM connection_method address = Return self ->
  (attr_status self = "Connected" /\ attr_device self <> None
   /\ attr_connected_with self <> None /\ attr_address self <> None)
  \/ ((attr_status self = "Not Connected" \/ attr_status self = "Invalid Method")
      /\ attr_device self = None /\ attr_connected_with self = None
      /\ attr_address self = None).
Proof.
  unfold Keysight34461A_connect.
  destruct (String.eqb connection_method "USB").
  - destruct (connect_usb_instrument RM address) as [[[d a] st]|e] eqn:E;
      [|discriminate].
    intros [= <-].
    destruct (connect_usb_instrument_status RM address _ E)
      as [[d' [= -> -> ->]]|[= -> -> ->]]; cbn;
      [left | right]; repeat split; auto; discriminate.
  - destruct (String.eqb connection_method "IP").
    + destruct (connect_ethernet_instrument RM address 5025 false)
        as [[[d a] st]|e] eqn:E; [|discriminate].
      intros [= <-].
      destruct (connect_ethernet_instrument_status RM address _ _ _ E)
        as [[d' [= -> -> ->]]|[= -> -> ->]]; cbn;
        [left | right]; repeat split; auto; discriminate.
    + intros [= <-]. cbn. right. repeat split; auto.
Qed.

(** X16: [__init__] of [Keysight34461A] returns, without raising and
    without printing or touching any device, the object (None, None,
    "Invalid Method", None) for every connection method other than "USB"
    and "IP".  Every object it has built has one of the three statuses
    "Connected", "Not Connected" and "Invalid Method": with "Connected" it
    has a device and a connection kind, and [__init__] has printed one line
    and assigned the timeout of 5000 ms, and nothing else; with the other
    two statuses it has no device, and [__init__] has neither printed nor
    touched any device. *)
Theorem Keysight34461A_init_status (connection_method address : string)
  (tr : trace) :
  (connection_method <> "USB" -> connection_method <> "IP" ->
   Keysight34461A_init RM connection_method address tr
   = (Return (mkAttributes None None "Invalid Method" None), tr))
  /\ (forall self tr',
        Keysight34461A_init RM connection_method address tr
        = (Return self, tr') ->
        (attr_status self = "Connected" /\ attr_device self <> None
         /\ attr_connected_with self <> None
         /\ commands (added tr tr') = [SetTimeout 5000]
         /\ List.length (prints (added tr tr')) = 1)
        \/ ((attr_status self = "Not Connected"
             \/ attr_status self = "Invalid Method")
            /\ attr_device self = None /\ attr_connected_with self = None
            /\ tr' = tr)).
Proof.
  split.
  - intros Hu Hi.
    unfold Keysight34461A_init, Keysight34461A_connect, lift, bind.
    apply String.eqb_neq in Hu, Hi. rewrite Hu, Hi. reflexivity.
  - intros self tr'.
    unfold Keysight34461A_init, lift, bind.
    destruct (Keysight34461A_connect RM connection_method address)
      as [a|e] eqn:E; [|discriminate].
    intros H.
    destruct (Keysight34461A_connect_status _ _ _ E)
      as [(Hs & Hd & Hc & Ha)|([Hs|Hs] & Hd & Hc & Ha)];
      rewrite Hs in H; cbn [String.eqb Ascii.eqb Bool.eqb] in H.
    + left. destruct (attr_device a) as [d|] eqn:Ed; [|congruence].
      unfold print, call, ret in H.
      destruct (d _ (SetTimeout 5000)) as [s|e]; [|discriminate].
      injection H as <- <-.
      rewrite <- app_assoc, added_app, Ed. cbn.
      repeat split; auto; discriminate.
    + right. unfold ret in H. injection H as <- <-. auto.
    + right. unfold ret in H. injection H as <- <-. auto.
Qed.

Ltac next_call :=
  match goal with
  | |- context [?d ?t (Write ?c)] =>
      match type of d with device => destruct (d t (Write c)) eqn:?; cbn [fst snd] end
  | |- context [?d ?t (Query ?c)] =>
      match type of d with device => destruct (d t (Query c)) eqn:?; cbn [fst snd] end
  | |- context [float_of_str ?s] => destruct (float_of_str s) eqn:?; cbn [fst snd]
  end.

(** X17: [dmm_test] of [Keysight34461A] refuses an object that is not
    "Connected": it prints one line and makes no device call.  On a
    connected object it raises only when the [*RST] write of the factory
    reset raises, with that exception and before any measurement;
    otherwise it returns, having sent [*RST] and the two MEASURE queries
    and slept 5 s, 1 s and 1 s, whatever the two measurements gave. *)
Theorem Keysight34461A_dmm_test_guard (self : attributes) (tr : trace) :
  (attr_status self <> "Connected" ->
   Keysight34461A_dmm_test str_of_float self tr
   = (Return tt, tr ++ [EvPrint "Cannot run test, device not connected."]))
  /\ (forall d,
        attr_status self = "Connected" -> attr_device self = Some d ->
        exists new,
          snd (Keysight34461A_dmm_test str_of_float self tr) = tr ++ new
          /\ match d (tr ++ [EvPrint "--- Keysight 34461A Demo Test ---"])
                     (Write "*RST") with
             | Raise e =>
                 fst (Keysight34461A_dmm_test str_of_float self tr) = Raised e
                 /\ commands new = [Write "*RST"]
                 /\ sleeps new = []
             | Ok _ =>
                 fst (Keysight34461A_dmm_test str_of_float self tr) = Return tt
                 /\ commands new
                    = [ Write "*RST";
                        Query "MEASURE:VOLTAGE:DC? 10,DEF";
                        Query "MEASURE:RESISTANCE? AUTO,DEF" ]
                 /\ sleeps new = [5000; 1000; 1000]
             end).
Proof.
  split.
  - intros Hs. unfold Keysight34461A_dmm_test.
    apply String.eqb_neq in Hs. now rewrite Hs.
  - intros d Hs Hd. unfold Keysight34461A_dmm_test.
    rewrite Hs. cbn [String.eqb Ascii.eqb Bool.eqb negb].
    unfold Keysight34461A_meas_dcv, Keysight34461A_meas_res, factory_reset,
      device_method, try_except, bind, call, py_float, print, sleep, ret,
      raise.
    rewrite Hd.
    repeat next_call.
    all: eexists; split; [rewrite <- ?app_assoc; simpl; reflexivity|].
    all: simpl; auto.
Qed.

(** X18: [dmm_test] of [Keithley2100] has no such guard and never raises:
    for every object, with or without a device, it returns after two
    sleeps of 1 s; without a device it makes no device call, prints an
    error line for each measurement and reports both values as "None". *)
Theorem Keithley2100_dmm_test_never_raises (self : object) (tr : trace) :
  exists new,
    Keithley2100_dmm_test str_of_float self tr = (Return tt, tr ++ new)
    /\ sleeps new = [1000; 1000]
    /\ (connected_device self = None ->
        commands new = []
        /\ exists err1 err2,
             prints new
             = [ err1; "DC Volts Measured: None";
                 err2; "Measured resistance out: None" ]).
Proof.
  unfold Keithley2100_dmm_test, Keithley2100_meas_dcv, Keithley2100_meas_res,
    connected_device, device_method, try_except, bind, call, py_float, print,
    sleep, ret, raise, str_of_measurement.
  destruct self as [[[d|] a st cw]|]; cbn [attr_device].
  - repeat next_call.
    all: eexists; split; [rewrite <- ?app_assoc; simpl; reflexivity|].
    all: simpl; split; auto; discriminate.
  - eexists; split; [rewrite <- ?app_assoc; simpl; reflexivity|].
    simpl. eauto.
  - eexists; split; [rewrite <- ?app_assoc; simpl; reflexivity|].
    simpl. eauto.
Qed.

End Keysight.

Section PowerSupply.

Context {B : PyBuiltins}.

(** X19: [measure_voltage] of [DP800] does not swallow errors, unlike the
    measurements of the multimeters: on a connected supply it sends its
    one :MEAS:VOLT? query and either returns the response read as a float
    after the 10 ms settling sleep, or raises, with the exception of the
    transport or with [ValueError] for a response that is not numeric,
    without sleeping and without printing. *)
Theorem DP800_measure_voltage_propagates (self : object) (d : device)
  (chan : string) (tr : trace) :
  connected_device self = Some d ->
  exists new,
    snd (DP800_measure_voltage self chan tr) = tr ++ new
    /\ commands new = [Query (fmt [":MEAS:VOLT? CH"; chan])]
    /\ prints new = []
    /\ match d tr (Query (fmt [":MEAS:VOLT? CH"; chan])) with
       | Ok s =>
           match float_of_str s with
           | Some x =>
               fst (DP800_measure_voltage self chan tr) = Return x
               /\ sleeps new = [DELAY_ms]
           | None =>
               (exists e, fst (DP800_measure_voltage self chan tr) = Raised e
                          /\ exn_cls e = ValueError)
               /\ sleeps new = []
           end
       | Raise e =>
           fst (DP800_measure_voltage self chan tr) = Raised e
           /\ sleeps new = []
       end.
Proof.
  unfold connected_device, DP800_measure_voltage, device_method, bind, call,
    py_float, sleep, ret, raise.
  destruct self as [[[d'|] a st cw]|]; cbn [attr_device]; try discriminate.
  intros [= ->].
  destruct (d tr (Query (fmt [":MEAS:VOLT? CH"; chan]))) as [s|e];
    cbn [fst snd].
  - destruct (float_of_str s); cbn [fst snd];
      (eexists; split; [rewrite <- ?app_assoc; simpl; reflexivity|]);
      simpl; repeat split; eauto.
  - eexists; split; [reflexivity|]. simpl; auto.
Qed.

(** X20: [set_voltage] of [DP800] selects the channel before it sets the
    value: on a connected supply its device calls are the :INST:NSEL write
    and then the :VOLT write, the second only after the first succeeded;
    each write that succeeded is followed by one 10 ms sleep, and the
    exception of a write that raises leaves the method at once: it is the
    exception of the last device call, every call before it succeeded,
    and the method returns only when both writes succeeded. *)
Theorem DP800_set_voltage_selects_first (self : object) (d : device)
  (chan val : string) (tr : trace) :
  connected_device self = Some d ->
  exists new,
    snd (DP800_set_voltage self chan val tr) = tr ++ new
    /\ initial_segment
         [Write (fmt [":INST:NSEL "; chan]); Write (fmt [":VOLT "; val])]
         (commands new)
    /\ sleeps new
       = repeat DELAY_ms (List.length (filter is_ok (replies new)))
    /\ match fst (DP800_set_voltage self chan val tr) with
       | Return _ =>
           commands new
           = [Write (fmt [":INST:NSEL "; chan]); Write (fmt [":VOLT "; val])]
           /\ forallb is_ok (replies new) = true
       | Raised e =>
           exists pre rq,
             new = pre ++ [EvCall rq (Raise e)]
             /\ forallb is_ok (replies pre) = true
       end.
Proof.
  unfold connected_device, DP800_set_voltage, device_method, bind, call,
    sleep, ret, raise.
  destruct self as [[[d'|] a st cw]|]; cbn [attr_device]; try discriminate.
  intros [= ->].
  repeat match goal with
         | |- context [d ?t ?rq] => destruct (d t rq) eqn:?; cbn [fst snd]
         end.
  all: eexists; split; [rewrite <- ?app_assoc; simpl; reflexivity|].
  all: unfold initial_segment; simpl; repeat split; eauto.
  - exists [EvCall (Write (fmt [":INST:NSEL "; chan])) (Ok payload);
            EvSleep DELAY_ms].
    eexists. split; reflexivity.
  - exists []. eexists. split; reflexivity.
Qed.

End PowerSupply.

(** ** The further properties on the test doubles *)

(** Busy for four queries, ready at the fifth. *)
Lemma wait_until_ready_first_ready_pass_witness :
  fst (wait_until_ready (busy_until 4) 5 []) = Some (Return tt)
  /\ commands (snd (wait_until_ready (busy_until 4) 5 []))
     = repeat (Query "*OPC?") 5.
Proof.
  pose proof (wait_until_ready_first_ready_pass (busy_until 4) 4 0 []
                eq_refl eq_refl) as HH.
  destruct HH as [H _].
  change (4 + 1) with 5 in H. rewrite H. split; reflexivity.
Defined.

(** The values of the third pass, after two block reads that timed out. *)
Lemma acquire_waveform_values_of_last_pass_witness :
  exists earlier last,
    added [] (snd (acquire_waveform curve_fails_twice_scope 3 "1" "1" "RPB" []))
    = earlier ++ last
    /\ pass_yields "1" "1" "RPB" last
         (mkWaveform "2.0e-3" (Some "0.0") (Some "127.5") (Some "4.0e-9")
            "#0abcdefgh").
Proof.
  exact (acquire_waveform_values_of_last_pass curve_fails_twice_scope 3
           "1" "1" "RPB" [] _ _ eq_refl).
Defined.

(** A multimeter that is switched off. *)
Lemma Keithley2100_not_connected_witness :
  exists self,
    Keithley2100_init rm_absent "USB" "USB0::0x05E6::0x2100::8020357::INSTR"
    = Return (Some self)
    /\ attr_status self = "Not Connected".
Proof.
  destruct (Keithley2100_not_connected rm_absent "USB"
              "USB0::0x05E6::0x2100::8020357::INSTR") as [H _].
  destruct (H (fun _ => OpenRaises io_error) io_error
              eq_refl eq_refl eq_refl eq_refl) as [self (Hi & Hs & _)].
  exists self. split; assumption.
Defined.

(** A multimeter found on the network, and a method that does not
    exist. *)
Lemma Keysight34461A_init_status_witness :
  Keysight34461A_init rm_found "GPIB" "192.168.1.100" []
  = (Return (mkAttributes None None "Invalid Method" None), [])
  /\ commands (snd (Keysight34461A_init rm_found "IP" "192.168.1.100" []))
     = [SetTimeout 5000].
Proof.
  split.
  - destruct (Keysight34461A_init_status rm_found "GPIB" "192.168.1.100" [])
      as [H _].
    apply H; discriminate.
  - destruct (Keysight34461A_init_status rm_found "IP" "192.168.1.100" [])
      as [_ H].
    destruct (H (mkAttributes (Some good_scope)
                   (Some "TCPIP0::192.168.1.100::INSTR") "Connected"
                   (Some "Ethernet"))
                (snd (Keysight34461A_init rm_found "IP" "192.168.1.100" []))
                eq_refl) as [(_ & _ & _ & Hc & _)|([Hs|Hs] & _)].
    + exact Hc.
    + discriminate Hs.
    + discriminate Hs.
Defined.

(** The demo test on an object built with an unknown method. *)
Lemma Keysight34461A_dmm_test_guard_witness :
  Keysight34461A_dmm_test plain_str
    (mkAttributes None None "Invalid Method" None) []
  = (Return tt, [EvPrint "Cannot run test, device not connected."]).
Proof.
  destruct (Keysight34461A_dmm_test_guard plain_str
              (mkAttributes None None "Invalid Method" None) []) as [H _].
  apply H. discriminate.
Defined.

(** The demo test of the Keithley on an object without attributes. *)
Lemma Keithley2100_dmm_test_never_raises_witness :
  exists new,
    Keithley2100_dmm_test plain_str None [] = (Return tt, new)
    /\ commands new = [].
Proof.
  destruct (Keithley2100_dmm_test_never_raises plain_str None [])
    as [new (Hr & _ & Hn)].
  exists new. split; [exact Hr | exact (proj1 (Hn eq_refl))].
Defined.

(** A supply that reads 5 V. *)
Lemma DP800_measure_voltage_propagates_witness :
  exists new,
    snd (DP800_measure_voltage (connected_to bench_psu) "2" []) = [] ++ new
    /\ commands new = [Query ":MEAS:VOLT? CH2"]
    /\ prints new = []
    /\ fst (DP800_measure_voltage (connected_to bench_psu) "2" [])
       = Return "5.000"
    /\ sleeps new = [DELAY_ms].
Proof.
  exact (DP800_measure_voltage_propagates (connected_to bench_psu) bench_psu
           "2" [] eq_refl).
Defined.

Lemma DP800_set_voltage_selects_first_witness :
  exists new,
    snd (DP800_set_voltage (connected_to bench_psu) "2" "5.0" []) = [] ++ new
    /\ initial_segment [Write ":INST:NSEL 2"; Write ":VOLT 5.0"] (commands new)
    /\ sleeps new = repeat DELAY_ms (List.length (filter is_ok (replies new)))
    /\ commands new = [Write ":INST:NSEL 2"; Write ":VOLT 5.0"]
    /\ forallb is_ok (replies new) = true.
Proof.
  exact (DP800_set_voltage_selects_first (connected_to bench_psu) bench_psu
           "2" "5.0" [] eq_refl).
Defined.
